(** * marbles: annotated assertion failures

    A shallow embedding of [marbles/marbles.py]: the annotation
    normaliser and assertion interceptor of [AnnotatedTestCase], and the
    stack inspection, source reconstruction and report rendering of
    [AnnotatedAssertionError]. *)

From Stdlib Require Import ZArith String Ascii List Lia.
From Stdlib Require Import DecimalString.
From stdpp Require Import base option gmap strings list.
From Equations Require Import Equations.

Set Warnings "-register-all".

Local Open Scope string_scope.
Local Open Scope Z_scope.

(** ** Python values and exceptions *)

(** The Python values an annotation argument can take.  [PStr], [PTuple]
    and [PList] are registered with [collections.abc.Sequence], [PDict]
    with [collections.abc.Mapping]; [PObject cls] stands for an instance
    of a class [cls] registered with neither.  Mappings are keyed by
    [str], the only keys the code ever looks up. *)
Inductive pyval : Type :=
| PNone
| PBool (b : bool)
| PInt (n : Z)
| PStr (s : string)
| PTuple (items : list pyval)
| PList (items : list pyval)
| PDict (d : gmap string pyval)
| PObject (cls : string).

(** The two messages [AnnotationError] is raised with.  The second one
    formats a Python [set], whose element order is unspecified, so the
    model keeps the set itself. *)
Inductive annotation_error : Type :=
| TypeNotSupported (error : string)
| MissingRequiredFields (missing : gset string).

Inductive exn : Type :=
| AnnotationError (error : annotation_error)
| TypeError (what : string)
| KeyError (key : string)
| IndexError (what : string)
| ValueError (what : string)
| AttributeError (attr : string)
| UnboundLocalError (var : string)
| SyntaxError.

Inductive result (A : Type) : Type :=
| OK (a : A)
| Raise (e : exn).
Arguments OK {A} a.
Arguments Raise {A} e.

#[export] Instance result_ret : MRet result := fun A a => OK a.
#[export] Instance result_bind : MBind result := fun A B k r =>
  match r with
  | OK a => k a
  | Raise e => Raise e
  end.

Definition raises {A : Type} (r : result A) : Prop :=
  exists e, r = Raise e.

(** ** Strings: [str.join], [str.split], [str.startswith], ['{:4d}'] *)

Definition nl : ascii := "010"%char.
Definition tab : ascii := "009"%char.
Definition NL : string := String nl EmptyString.
Definition TAB : string := String tab EmptyString.

(** [sep.join(pieces)] *)
Definition join (sep : string) (pieces : list string) : string :=
  String.concat sep pieces.

(** [s.split('\n')] *)
Fixpoint split_lines (s : string) : list string :=
  match s with
  | EmptyString => [EmptyString]
  | String c rest =>
      if Ascii.eqb c nl then EmptyString :: split_lines rest
      else
        match split_lines rest with
        | piece :: pieces => String c piece :: pieces
        | [] => [String c EmptyString]
        end
  end.

(** [s.startswith(p)] *)
Definition startswith (s p : string) : bool := String.prefix p s.

(** [s[len(p):]] for a prefix [p] of [s]. *)
Definition drop_prefix (p s : string) : string :=
  String.substring (String.length p) (String.length s - String.length p) s.

(** [str(i)] for an [int]. *)
Definition str_of_int (i : Z) : string :=
  NilZero.string_of_int (Z.to_int i).

(** ['{:4d}'.format(i)]: right-aligned in a field of four columns. *)
Definition format_4d (i : Z) : string :=
  let digits := str_of_int i in
  join EmptyString (repeat " " (4 - String.length digits)) +:+ digits.

(** [range(lo, hi)] *)
Definition py_range (lo hi : Z) : list Z :=
  map (fun k => lo + Z.of_nat k) (seq 0 (Z.to_nat (hi - lo))).

(** ** [textwrap.dedent] *)

Definition is_indent_char (c : ascii) : bool :=
  Ascii.eqb c " "%char || Ascii.eqb c tab.

(** The longest run of spaces and tabs a line starts with. *)
Fixpoint leading_whitespace (line : string) : string :=
  match line with
  | String c rest =>
      if is_indent_char c then String c (leading_whitespace rest)
      else EmptyString
  | EmptyString => EmptyString
  end.

(** [_whitespace_only_re]: a line of one or more spaces and tabs. *)
Definition whitespace_only (line : string) : bool :=
  negb (String.eqb line EmptyString)
  && String.eqb (leading_whitespace line) line.

(** [_leading_whitespace_re]: the indent of a line that holds a
    character other than a space or a tab. *)
Definition line_indent (line : string) : option string :=
  let indent := leading_whitespace line in
  if String.eqb indent line then None else Some indent.

Fixpoint common_prefix (x y : string) : string :=
  match x, y with
  | String a x', String b y' =>
      if Ascii.eqb a b then String a (common_prefix x' y') else EmptyString
  | _, _ => EmptyString
  end.

(** One round of the loop over [indents]. *)
Definition narrow_margin (margin : option string) (indent : string)
  : option string :=
  match margin with
  | None => Some indent
  | Some m =>
      if startswith indent m then Some m
      else if startswith m indent then Some indent
      else Some (common_prefix m indent)
  end.

(** [_whitespace_only_re.sub('', text)] on one line. *)
Definition blank_to_empty (line : string) : string :=
  if whitespace_only line then EmptyString else line.

(** [re.sub(r'(?m)^' + margin, '', text)] on one line. *)
Definition strip_margin (margin line : string) : string :=
  if startswith line margin then drop_prefix margin line else line.

(** [dedent] line by line: the text is handled as the list of its
    lines, which is what the three multi-line regular expressions do. *)
Definition dedent_lines (lines : list string) : list string :=
  let lines := map blank_to_empty lines in
  let indents := omap line_indent lines in
  match fold_left narrow_margin indents None with
  | Some (String c m) => map (strip_margin (String c m)) lines
  | _ => lines
  end.

Definition dedent (text : string) : string :=
  join NL (dedent_lines (split_lines text)).

(** ** [ast.parse] trees and [ast.walk] *)

(** A node of the tree [ast.parse] returns: whether it is an instance of
    [ast.stmt], its [lineno] attribute when it has one, and its child
    nodes in the order [ast.iter_child_nodes] yields them. *)
Inductive ast : Type :=
| Node (is_stmt : bool) (lineno : option Z) (children : list ast).

Definition is_stmt (node : ast) : bool :=
  match node with Node b _ _ => b end.
Definition lineno (node : ast) : option Z :=
  match node with Node _ l _ => l end.
Definition children (node : ast) : list ast :=
  match node with Node _ _ cs => cs end.

Fixpoint ast_size (node : ast) : nat :=
  match node with
  | Node _ _ cs => S (list_sum (map ast_size cs))
  end.

Definition queue_size (todo : list ast) : nat :=
  list_sum (map ast_size todo).

(** The loop of [ast.walk] on its deque: pop the leftmost node, append
    its children on the right, yield it. *)
Equations walk_queue (todo : list ast) : list ast
  by wf (queue_size todo) lt :=
  walk_queue [] := [];
  walk_queue (node :: todo) := node :: walk_queue (todo ++ children node).
Next Obligation.
  unfold queue_size. rewrite map_app, list_sum_app.
  destruct node; simpl. lia.
Qed.

(** [ast.walk(node)]: breadth first. *)
Definition walk (node : ast) : list ast := walk_queue [node].

(** ** Dictionaries, the heap, frames and [traceback] *)

(** A [dict] keyed by [str], in insertion order. *)
Abbreviation dict := (list (string * pyval)).

Fixpoint dict_get (d : dict) (key : string) : option pyval :=
  match d with
  | [] => None
  | (k, v) :: d => if String.eqb k key then Some v else dict_get d key
  end.

(** [d[key] = x]: in place of the old value, or as a new last entry. *)
Fixpoint dict_set (d : dict) (key : string) (x : pyval) : dict :=
  match d with
  | [] => [(key, x)]
  | (k, v) :: d =>
      if String.eqb k key then (k, x) :: d else (k, v) :: dict_set d key x
  end.

(** Dictionary objects live in a heap; a frame and a failure object
    refer to theirs by location. *)
Abbreviation loc := positive.
Abbreviation heap := (gmap loc dict).

(** A live stack frame: [f_code.co_name], [f_locals],
    [f_code.co_filename] and [f_lineno]. *)
Record frame : Type := Frame {
  f_name : string;
  f_locals : loc;
  f_filename : string;
  f_lineno : Z
}.

Module FrameSummary.
(** [traceback.FrameSummary].  Instances do not outlive the call of
    [_get_stack] that makes them, so the dictionary of one is held by
    value. *)
Record t : Type := Make {
  name : string;
  locals : option dict;
  filename : string;
  lineno : Z
}.
End FrameSummary.

Section Traceback.
(** [repr] *)
Variable py_repr : pyval -> string.

(** What [FrameSummary.__init__] does with [locals]: a new dictionary
    of the [repr] of each value if there is any binding, else [None]. *)
Definition summary_locals (f_locals : dict) : option dict :=
  match f_locals with
  | [] => None
  | _ => Some (map (fun '(k, v) => (k, PStr (py_repr v))) f_locals)
  end.

(** [StackSummary.extract(walk_stack(f), capture_locals=True)], for the
    frames from [f] outwards, with no traceback limit set. *)
Definition extract (h : heap) (stack : list frame) : list FrameSummary.t :=
  map (fun f =>
         FrameSummary.Make (f_name f)
           (summary_locals (default [] (h !! f_locals f)))
           (f_filename f) (f_lineno f))
      stack.

(** [str(v)]: the string itself, and [repr(v)] for the other values. *)
Definition py_str (v : pyval) : string :=
  match v with
  | PStr s => s
  | _ => py_repr v
  end.
End Traceback.

(** ** [str.format] with keyword arguments only *)

Definition is_digit (c : ascii) : bool :=
  (48 <=? nat_of_ascii c)%nat && (nat_of_ascii c <=? 57)%nat.

Fixpoint all_digits (s : string) : bool :=
  match s with
  | EmptyString => true
  | String c rest => is_digit c && all_digits rest
  end.

(** The characters that start an attribute, an index, a conversion, a
    format specification or a nested field. *)
Definition starts_field_syntax (c : ascii) : bool :=
  Ascii.eqb c "."%char || Ascii.eqb c "["%char || Ascii.eqb c "!"%char
  || Ascii.eqb c ":"%char || Ascii.eqb c "{"%char.

Section Format.
Variable py_repr : pyval -> string.
(** The replacement fields that are more than a plain name are left to
    this parameter: it is given the name read so far, the template
    from the character that starts the extra syntax on, and the
    keyword arguments, and returns what the rest of the template
    formats to. *)
Variable format_field_syntax : string -> string -> dict -> result string.

(** A field that is a plain name: empty or a number is an index into
    the (empty) positional arguments, anything else a keyword. *)
Definition field_value (name : string) (kwargs : dict) : result string :=
  if all_digits name then
    Raise (IndexError "Replacement index out of range for positional args tuple")
  else
    match dict_get kwargs name with
    | Some v => OK (py_str py_repr v)
    | None => Raise (KeyError name)
    end.

(** [field = None]: reading literal text; [field = Some name]: inside
    a replacement field, [name] read so far. *)
Fixpoint format_from (template : string) (field : option string)
    (kwargs : dict) : result string :=
  match template with
  | EmptyString =>
      match field with
      | None => OK EmptyString
      | Some _ => Raise (ValueError "expected '}' before end of string")
      end
  | String c rest =>
      match field with
      | None =>
          if Ascii.eqb c "{" then
            match rest with
            | String c' rest' =>
                if Ascii.eqb c' "{" then
                  out ← format_from rest' None kwargs; OK (String "{" out)
                else format_from rest (Some EmptyString) kwargs
            | EmptyString =>
                Raise (ValueError "Single '{' encountered in format string")
            end
          else if Ascii.eqb c "}" then
            match rest with
            | String c' rest' =>
                if Ascii.eqb c' "}" then
                  out ← format_from rest' None kwargs; OK (String "}" out)
                else Raise (ValueError "Single '}' encountered in format string")
            | EmptyString =>
                Raise (ValueError "Single '}' encountered in format string")
            end
          else
            out ← format_from rest None kwargs; OK (String c out)
      | Some name =>
          if Ascii.eqb c "}" then
            value ← field_value name kwargs;
            out ← format_from rest None kwargs;
            OK (value +:+ out)
          else if starts_field_syntax c then
            format_field_syntax name template kwargs
          else
            format_from rest (Some (name +:+ String c EmptyString)) kwargs
      end
  end.

(** [template.format] applied to the unpacked [kwargs];
    [kwargs = None] is Python's [None], which cannot be unpacked. *)
Definition str_format (template : string) (kwargs : option dict)
  : result string :=
  match kwargs with
  | None =>
      Raise (TypeError "format() argument after ** must be a mapping, not NoneType")
  | Some kwargs => format_from template None kwargs
  end.
End Format.

(** ** [AnnotatedAssertionError] *)

Module AnnotatedAssertionError.

Definition REQUIRED_KEYS : list string := ["message"; "advice"].
Definition _IGNORE_LOCALS : list string := ["message"; "advice"; "self"].

(** The annotation [__init__] is handed: a value nobody else holds (the
    dictionary the wrapper builds from a sequence or from keywords), or
    a dictionary object of the heap, which its other holders see change
    when the failure object writes to it (the mapping a caller passed is
    handed on as it is). *)
Inductive annotation_object : Type :=
| Unshared (v : pyval)
| InHeap (l : loc).

Coercion Unshared : pyval >-> annotation_object.

(** The attributes [__init__] sets.  [None] is Python's [None];
    [_locals] refers to a dictionary in the heap. *)
Record t : Type := Make {
  _annotation : annotation_object;
  _msg : string;
  _locals : option loc;
  _filename : option string;
  _linenumber : option Z;
  _assert_expr : option string;
  _formatted_msg : option string
}.

Definition set_annotation (v : annotation_object) (self : t) : t :=
  Make v (_msg self) (_locals self) (_filename self) (_linenumber self)
    (_assert_expr self) (_formatted_msg self).
Definition set_stack (l : loc) (file : string) (line : Z) (self : t) : t :=
  Make (_annotation self) (_msg self) (Some l) (Some file) (Some line)
    (_assert_expr self) (_formatted_msg self).
Definition set_assert_expr (v : string) (self : t) : t :=
  Make (_annotation self) (_msg self) (_locals self) (_filename self)
    (_linenumber self) (Some v) (_formatted_msg self).
Definition set_formatted_msg (v : string) (self : t) : t :=
  Make (_annotation self) (_msg self) (_locals self) (_filename self)
    (_linenumber self) (_assert_expr self) (Some v).

(** Methods run on the heap and the object, and return or raise. *)
Definition M (A : Type) : Type := heap * t -> result (A * (heap * t)).

#[export] Instance M_ret : MRet M := fun A a s => OK (a, s).
#[export] Instance M_bind : MBind M := fun A B k m s =>
  match m s with
  | OK (a, s) => k a s
  | Raise e => Raise e
  end.

Definition raise {A : Type} (e : exn) : M A := fun _ => Raise e.
Definition lift {A : Type} (r : result A) : M A := fun s =>
  match r with
  | OK a => OK (a, s)
  | Raise e => Raise e
  end.
Definition get_self : M t := fun s => OK (s.2, s).
Definition get_heap : M heap := fun s => OK (s.1, s).
Definition update_self (f : t -> t) : M unit := fun s => OK (tt, (s.1, f s.2)).
(** A new dictionary object. *)
Definition alloc (d : dict) : M loc := fun s =>
  let l := fresh (dom s.1) in OK (l, (<[l:=d]> s.1, s.2)).

(** [v[key]] and [v[key] = x] on a value. *)
Definition getitem (v : pyval) (key : string) : result pyval :=
  match v with
  | PDict d =>
      match d !! key with
      | Some x => OK x
      | None => Raise (KeyError key)
      end
  | _ => Raise (TypeError "object is not subscriptable by str")
  end.
Definition setitem (v : pyval) (key : string) (x : pyval) : result pyval :=
  match v with
  | PDict d => OK (PDict (<[key:=x]> d))
  | _ => Raise (TypeError "object does not support item assignment")
  end.

(** [a[key]] on the annotation: of the value, or of the dictionary
    object as the heap has it now. *)
Definition annotation_getitem (a : annotation_object) (key : string) : M pyval :=
  match a with
  | Unshared v => lift (getitem v key)
  | InHeap l =>
      h ← get_heap;
      match dict_get (default [] (h !! l)) key with
      | Some x => mret x
      | None => raise (KeyError key)
      end
  end.

(** [self._annotation[key] = x]: the dictionary object is written in
    place. *)
Definition annotation_setitem (key : string) (x : pyval) : M unit :=
  self ← get_self;
  match _annotation self with
  | Unshared v =>
      v ← lift (setitem v key x);
      update_self (set_annotation (Unshared v))
  | InHeap l =>
      fun s => OK (tt, (<[l := dict_set (default [] (s.1 !! l)) key x]> s.1, s.2))
  end.

(** [' {0} {1:4d} {2}'.format(prefix, i, line)] *)
Definition format_line (prefix : string) (i : Z) (line : string) : string :=
  " " +:+ prefix +:+ " " +:+ format_4d i +:+ " " +:+ line.

(** The [for] loop of [_get_source] over the nodes still to come, with
    the current binding of [statement]: [Some (statement, line_range)]
    when it leaves through [break], [None] when the walk runs out. *)
Fixpoint find_line (nodes : list ast) (statement : option ast)
    (linenumber : option Z) (leading following : Z)
  : result (option (ast * list Z)) :=
  match nodes with
  | [] => OK None
  | node :: nodes =>
      let statement := if is_stmt node then Some node else statement in
      match lineno node, linenumber with
      | Some l, Some n =>
          if decide (l = n) then
            match statement with
            | None => Raise (UnboundLocalError "statement")
            | Some stmt =>
                match lineno stmt with
                | None => Raise (AttributeError "lineno")
                | Some first =>
                    OK (Some (stmt, py_range (first - leading) (n + following)))
                end
            end
          else find_line nodes statement linenumber leading following
      | _, _ => find_line nodes statement linenumber leading following
      end
  end.

Section Methods.
(** [repr], [textwrap.wrap], the part of [str.format] beyond plain
    names, [linecache] (the lines of every file it can read, each
    ending in a newline) and [ast.parse]. *)
Variable py_repr : pyval -> string.
Variable wrap : string -> Z -> list string.
Variable format_field_syntax : string -> string -> dict -> result string.
Variable cache : gmap string (list string).
Variable ast_parse : string -> result ast.

(** [linecache.getlines]: empty for no file name or an unreadable
    file. *)
Definition getlines (filename : option string) : list string :=
  match filename with
  | Some name => default [] (cache !! name)
  | None => []
  end.

(** [linecache.getline] *)
Definition getline (filename : option string) (lineno : Z) : string :=
  let lines := getlines filename in
  if decide (1 <= lineno <= Z.of_nat (length lines))
  then default EmptyString (lines !! Z.to_nat (lineno - 1))
  else EmptyString.

Definition _get_source (filename : option string) (linenumber : option Z)
    (leading following : Z) : result string :=
  let _source := join EmptyString (getlines filename) in
  _tree ← ast_parse _source;
  found ← find_line (walk _tree) None linenumber leading following;
  match found with
  | None => Raise (UnboundLocalError "source")
  | Some (statement, line_range) =>
      let source := map (getline filename) line_range in
      let dedented_lines :=
        removelast (split_lines (dedent (join EmptyString source))) in
      let formatted_lines :=
        map (fun '(i, line) =>
               let prefix :=
                 if decide (Some i = lineno statement) then ">" else " " in
               format_line prefix i line)
            (zip line_range dedented_lines) in
      OK (join NL formatted_lines)
  end.

(** [stack]: the live frames [traceback.walk_stack] yields, innermost
    first, from the method that raised the failure outwards.  The frames
    of the methods of the failure object itself, which come before
    them, are left out: none of their names starts with [test_]. *)
Definition _get_stack (stack : list frame) : M unit :=
  h ← get_heap;
  let stack := extract py_repr h stack in
  match List.find (fun level => startswith (FrameSummary.name level) "test_")
                  stack with
  | Some level =>
      match FrameSummary.locals level with
      | None => raise (AttributeError "copy")
      | Some locals =>
          copy ← alloc locals;
          update_self (set_stack copy (FrameSummary.filename level)
                         (FrameSummary.lineno level))
      end
  | None => mret tt
  end.

(** [not self._locals]: [None], or an empty dictionary. *)
Definition no_locals (h : heap) (self : t) : bool :=
  match _locals self with
  | None => true
  | Some l =>
      match h !! l with
      | Some (_ :: _) => false
      | _ => true
      end
  end.

(** The properties.  [locals] returns the dictionary itself. *)
Definition annotation : M annotation_object :=
  self ← get_self; mret (_annotation self).

Definition standardMsg : M string :=
  self ← get_self; mret (_msg self).

Definition locals (stack : list frame) : M (option dict) :=
  self ← get_self;
  h ← get_heap;
  _ ← (if no_locals h self then _get_stack stack else mret tt);
  self ← get_self;
  h ← get_heap;
  mret (l ← _locals self; h !! l).

Definition filename (stack : list frame) : M (option string) :=
  self ← get_self;
  _ ← (match _filename self with
       | None | Some EmptyString => _get_stack stack
       | Some _ => mret tt
       end);
  self ← get_self;
  mret (_filename self).

Definition linenumber (stack : list frame) : M (option Z) :=
  self ← get_self;
  _ ← (match _linenumber self with
       | None | Some 0 => _get_stack stack
       | Some _ => mret tt
       end);
  self ← get_self;
  mret (_linenumber self).

Definition assert_expr (stack : list frame) : M (option string) :=
  self ← get_self;
  _ ← (match _assert_expr self with
       | None | Some EmptyString =>
           file ← filename stack;
           line ← linenumber stack;
           assert_expr ← lift (_get_source file line 1 2);
           update_self (set_assert_expr assert_expr)
       | Some _ => mret tt
       end);
  self ← get_self;
  mret (_assert_expr self).

(** [v.format]: only a [str] has the method. *)
Definition format_method (v : pyval) : result string :=
  match v with
  | PStr template => OK template
  | _ => Raise (AttributeError "format")
  end.

Definition _format_annotation (stack : list frame) : M unit :=
  self ← get_self;
  message ← annotation_getitem (_annotation self) "message";
  message ← lift (format_method message);
  locals_ ← locals stack;
  formatted_message ←
    lift (str_format py_repr format_field_syntax message locals_);
  self ← get_self;
  advice ← annotation_getitem (_annotation self) "advice";
  advice ← lift (format_method advice);
  locals_ ← locals stack;
  formatted_advice ←
    lift (str_format py_repr format_field_syntax advice locals_);
  let formatted_message := wrap formatted_message 74 in
  let formatted_advice := wrap formatted_advice 64 in
  _ ← annotation_setitem "message" (PStr (join NL formatted_message));
  annotation_setitem "advice" (PStr (join (NL +:+ TAB) formatted_advice)).

(** The condition of the dictionary comprehension. *)
Definition shown_local (k : string) : bool :=
  negb (bool_decide (k ∈ _IGNORE_LOCALS)) && negb (startswith k "_").

Definition _format_locals (stack : list frame) : M string :=
  locals_ ← locals stack;
  match locals_ with
  | None => raise (AttributeError "items")
  | Some locals_ =>
      let locals_ := List.filter (fun '(k, v) => shown_local k) locals_ in
      mret (join (NL +:+ TAB)
              (map (fun '(k, v) => k +:+ "=" +:+ py_str py_repr v) locals_))
  end.

(** [_META_FORMAT_STRING.format(...)] *)
Definition meta_format (standardMsg message assert_expr locals advice : string)
  : string :=
  standardMsg +:+ NL +:+ message +:+ NL +:+ NL
  +:+ "Source:" +:+ NL +:+ assert_expr +:+ NL
  +:+ "Locals:" +:+ NL +:+ TAB +:+ locals +:+ NL
  +:+ "Advice:" +:+ NL +:+ TAB +:+ advice +:+ NL +:+ "    ".

Definition _format_msg (stack : list frame) : M string :=
  standardMsg ← standardMsg;
  a ← annotation;
  message ← annotation_getitem a "message";
  assert_expr ← assert_expr stack;
  a ← annotation;
  advice ← annotation_getitem a "advice";
  locals ← _format_locals stack;
  mret (meta_format standardMsg (py_str py_repr message)
          (default "None" assert_expr) locals (py_str py_repr advice)).

Definition formattedMsg (stack : list frame) : M (option string) :=
  self ← get_self;
  _ ← (match _formatted_msg self with
       | None | Some EmptyString =>
           formatted_msg ← _format_msg stack;
           update_self (set_formatted_msg formatted_msg)
       | Some _ => mret tt
       end);
  self ← get_self;
  mret (_formatted_msg self).

(** [__init__] on [args[0] = (annotation, msg)]: the state it leaves
    and the text it hands to [AssertionError.__init__]. *)
Definition __init__ (stack : list frame) (args0 : annotation_object * string)
  : heap -> result (option string * (heap * t)) := fun h =>
  let self := Make args0.1 args0.2 None None None None None in
  (_ ← _format_annotation stack; formattedMsg stack) (h, self).
End Methods.
End AnnotatedAssertionError.

(** ** [AnnotatedTestCase] *)

Module AnnotatedTestCase.

Definition _formatMessage (msg : pyval) (standardMsg : string)
  : pyval * string := (msg, standardMsg).

(** [type(v).__name__], qualified for instances of other classes. *)
Definition type_name (v : pyval) : string :=
  match v with
  | PNone => "NoneType"
  | PBool _ => "bool"
  | PInt _ => "int"
  | PStr _ => "str"
  | PTuple _ => "tuple"
  | PList _ => "list"
  | PDict _ => "dict"
  | PObject cls => cls
  end.

(** [str(type(v))] *)
Definition type_str (v : pyval) : string :=
  "<class '" +:+ type_name v +:+ "'>".

(** Iterating a [str] yields its characters as one-character strings. *)
Fixpoint str_items (s : string) : list pyval :=
  match s with
  | EmptyString => []
  | String c rest => PStr (String c EmptyString) :: str_items rest
  end.

(** [isinstance(v, collections.abc.Sequence)], with the items iteration
    yields. *)
Definition sequence_items (v : pyval) : option (list pyval) :=
  match v with
  | PStr s => Some (str_items s)
  | PTuple items => Some items
  | PList items => Some items
  | _ => None
  end.

(** [isinstance(v, collections.abc.Mapping)] *)
Definition is_mapping (v : pyval) : bool :=
  match v with
  | PDict _ => true
  | _ => false
  end.

(** A sequence gives a new dictionary; a mapping is returned as it is,
    the object the caller holds, which is why the failure object may be
    handed an annotation that it shares
    ([AnnotatedAssertionError.InHeap]). *)
Definition _coerce_annotation_dict (annotation : pyval) : result pyval :=
  match sequence_items annotation with
  | Some items =>
      OK (PDict (list_to_map (zip AnnotatedAssertionError.REQUIRED_KEYS items)))
  | None =>
      if is_mapping annotation then OK annotation
      else
        let error := "Annotation type not supported: " +:+ type_str annotation in
        Raise (AnnotationError (TypeNotSupported error))
  end.

Definition required_set : gset string := list_to_set AnnotatedAssertionError.REQUIRED_KEYS.

Definition _validate_annotation (annotation : pyval) : result unit :=
  match annotation with
  | PDict d =>
      let required := required_set in
      let missing := required ∖ dom d in
      if decide (missing = ∅) then OK tt
      else Raise (AnnotationError (MissingRequiredFields missing))
  | _ => Raise (AttributeError "keys")
  end.

(** The wrapper [__getattribute__] puts around an [assert] method. *)

(** What a call of the wrapper ends in: an exception, or the tail call
    [attr] applied to the remaining positional arguments, [msg=annotation]
    and the remaining keyword arguments.  A [msg] still among the
    keyword arguments (it is only popped on the branch that reads it)
    makes the call expression itself raise: [msg] is given twice. *)
Inductive outcome : Type :=
| Raised (e : exn)
| Forwarded (args : list pyval) (msg : pyval) (kwargs : gmap string pyval).

(** [args[-1]] and [args[:-1]] *)
Definition pop_last (args : list pyval) : result (pyval * list pyval) :=
  match last args with
  | Some msg => OK (msg, removelast args)
  | None => Raise (IndexError "tuple index out of range")
  end.

(** The first half of [wrapper]: the annotation it settles on, with the
    positional and keyword arguments left for the wrapped assertion. *)
Definition wrapper_annotation (args : list pyval) (kwargs : gmap string pyval)
  : result (pyval * list pyval * gmap string pyval) :=
  let required_keys := required_set in
  let provided_keys := dom kwargs ∩ required_keys in
  if decide (provided_keys ≠ ∅) then
    let bundle := filter (fun kv => kv.1 ∈ provided_keys) kwargs in
    let kwargs := filter (fun kv => kv.1 ∉ provided_keys) kwargs in
    annotation ← _coerce_annotation_dict (PDict bundle);
    OK (annotation, args, kwargs)
  else
    match kwargs !! "msg" with
    | Some msg =>
        let kwargs := delete "msg" kwargs in
        annotation ← _coerce_annotation_dict msg;
        OK (annotation, args, kwargs)
    | None =>
        '(msg, args) ← pop_last args;
        annotation ← _coerce_annotation_dict msg;
        OK (annotation, args, kwargs)
    end.

Definition wrapper (args : list pyval) (kwargs : gmap string pyval) : outcome :=
  match wrapper_annotation args kwargs with
  | Raise e => Raised e
  | OK (annotation, args, kwargs) =>
      match _validate_annotation annotation with
      | Raise e => Raised e
      | OK _ =>
          match kwargs !! "msg" with
          | Some _ =>
              Raised (TypeError "got multiple values for keyword argument 'msg'")
          | None => Forwarded args annotation kwargs
          end
      end
  end.


End AnnotatedTestCase.

(** ** Notions the properties are stated with *)

(** The binding of [statement] in the loop of [_get_source] once it has
    visited these nodes. *)
Definition tracked_statement (visited : list ast) : option ast :=
  fold_left (fun statement node => if is_stmt node then Some node else statement)
            visited None.

(** The test of [_get_stack] on a live frame. *)
Definition is_test_frame (f : frame) : bool := startswith (f_name f) "test_".

(** A string that holds no newline: one line of a file without its
    end. *)
Fixpoint newline_free (s : string) : bool :=
  match s with
  | EmptyString => true
  | String c rest => negb (Ascii.eqb c nl) && newline_free rest
  end.

(** A name [str.format] reads as one keyword: no character that ends
    the field or starts more syntax, and not a number. *)
Fixpoint plain_chars (s : string) : bool :=
  match s with
  | EmptyString => true
  | String c rest =>
      negb (Ascii.eqb c "}"%char) && negb (starts_field_syntax c)
      && plain_chars rest
  end.

Definition plain_name (s : string) : bool :=
  plain_chars s && negb (all_digits s).


(** The entry of the annotation of a failure object under [key]: of
    the value the object holds, or of the dictionary object it shares. *)
Definition annotation_item (s : heap * AnnotatedAssertionError.t) (key : string)
  : option pyval :=
  match AnnotatedAssertionError._annotation s.2 with
  | AnnotatedAssertionError.Unshared (PDict d) => d !! key
  | AnnotatedAssertionError.Unshared _ => None
  | AnnotatedAssertionError.InHeap l => d ← s.1 !! l; dict_get d key
  end.

(** The state after [self._annotation[key] = x]. *)
Definition with_item (key : string) (x : pyval)
    (s : heap * AnnotatedAssertionError.t) : heap * AnnotatedAssertionError.t :=
  match AnnotatedAssertionError._annotation s.2 with
  | AnnotatedAssertionError.Unshared (PDict d) =>
      (s.1, AnnotatedAssertionError.set_annotation
              (AnnotatedAssertionError.Unshared (PDict (<[key := x]> d))) s.2)
  | AnnotatedAssertionError.Unshared _ => s
  | AnnotatedAssertionError.InHeap l =>
      (<[l := dict_set (default [] (s.1 !! l)) key x]> s.1, s.2)
  end.

(** The state in which the first reading of [locals] leaves a failure
    object that held no snapshot, with [fr] the first test frame of the
    stack and [d] its locals: a new dictionary holds the [repr] of each
    local, and the object refers to it and holds the location of the
    frame. *)
Definition captured (py_repr : pyval -> string) (h : heap) (fr : frame)
    (d : dict) (self : AnnotatedAssertionError.t)
  : heap * AnnotatedAssertionError.t :=
  (<[fresh (dom h) := map (fun '(k, v) => (k, PStr (py_repr v))) d]> h,
   AnnotatedAssertionError.set_stack (fresh (dom h)) (f_filename fr)
     (f_lineno fr) self).

(** A template whose replacement fields are plain names, as
    [str.format] reads it: literal text without braces, a field, or a
    doubled brace. *)
Inductive piece : Type :=
| Text (s : string)
| Field (name : string)
| OpenBrace
| CloseBrace.

Fixpoint brace_free (s : string) : bool :=
  match s with
  | EmptyString => true
  | String c rest =>
      negb (Ascii.eqb c "{"%char) && negb (Ascii.eqb c "}"%char)
      && brace_free rest
  end.

Definition piece_ok (p : piece) : bool :=
  match p with
  | Text s => brace_free s
  | Field name => plain_chars name
  | OpenBrace | CloseBrace => true
  end.

Definition piece_text (p : piece) : string :=
  match p with
  | Text s => s
  | Field name => "{" +:+ name +:+ "}"
  | OpenBrace => "{{"
  | CloseBrace => "}}"
  end.

Definition template_text (ps : list piece) : string :=
  foldr (fun p text => piece_text p +:+ text) EmptyString ps.

(** What the pieces expand to against the locals [d] of a frame, from
    left to right: a field to the [repr] of the value bound to its
    name. *)
Definition expand_piece (py_repr : pyval -> string) (d : dict) (p : piece)
  : result string :=
  match p with
  | Text s => OK s
  | Field name =>
      if all_digits name then
        Raise (IndexError "Replacement index out of range for positional args tuple")
      else
        match dict_get d name with
        | Some v => OK (py_repr v)
        | None => Raise (KeyError name)
        end
  | OpenBrace => OK "{"
  | CloseBrace => OK "}"
  end.

Fixpoint expand (py_repr : pyval -> string) (d : dict) (ps : list piece)
  : result string :=
  match ps with
  | [] => OK EmptyString
  | p :: ps =>
      value ← expand_piece py_repr d p;
      out ← expand py_repr d ps;
      OK (value +:+ out)
  end.

(** The same with every field bound: the text itself. *)
Definition expansion_piece (py_repr : pyval -> string) (d : dict) (p : piece)
  : string :=
  match p with
  | Text s => s
  | Field name =>
      match dict_get d name with
      | Some v => py_repr v
      | None => EmptyString
      end
  | OpenBrace => "{"
  | CloseBrace => "}"
  end.

Fixpoint expansion (py_repr : pyval -> string) (d : dict) (ps : list piece)
  : string :=
  match ps with
  | [] => EmptyString
  | p :: ps => expansion_piece py_repr d p +:+ expansion py_repr d ps
  end.

(** The names of the fields of a template. *)
Definition field_names (ps : list piece) : list string :=
  omap (fun p => match p with Field name => Some name | _ => None end) ps.

(** The Locals section for the locals [d] of a frame. *)
Definition locals_listing (py_repr : pyval -> string) (d : dict) : string :=
  join (NL +:+ TAB)
    (map (fun '(k, v) => k +:+ "=" +:+ py_repr v)
         (List.filter (fun '(k, v) => AnnotatedAssertionError.shown_local k) d)).

(** ** Sample inputs *)

(** A module of sixteen indented lines whose only statement starts on
    line 10 and has its last sub-expression on line 13. *)
Definition sample_lines : list string :=
  map (fun k => "    line " +:+ str_of_int (Z.of_nat k) +:+ NL) (seq 1 16).

Definition sample_tree : ast :=
  Node false None
    [Node true (Some 10)
       [Node false (Some 10)
          [Node false (Some 10) []; Node false (Some 11) [];
           Node false (Some 13) []]]].

Definition sample_cache : gmap string (list string) :=
  {[ "test_sample.py" := sample_lines ]}.

Definition sample_parse (source : string) : result ast := OK sample_tree.

(** What [linecache] and [ast.parse] give when the source of the test
    cannot be read: no lines, and a module without a node. *)
Definition unreadable_cache : gmap string (list string) := ∅.

Definition unreadable_parse (source : string) : result ast :=
  OK (Node false None []).

(** Two test methods of one line each in one class: the breadth-first
    walk visits the statement of the second before the expression of the
    first. *)
Definition sample_tree_two_tests : ast :=
  Node false None
    [Node true (Some 1)
       [Node true (Some 2)
          [Node true (Some 3) [Node false (Some 3) [Node false (Some 4) []]]];
        Node true (Some 6)
          [Node true (Some 7) [Node false (Some 7) []]]]].

(** A [repr] for the samples: integers in decimal, strings quoted. *)
Definition sample_repr (v : pyval) : string :=
  match v with
  | PInt n => str_of_int n
  | PStr s => "'" +:+ s +:+ "'"
  | PNone => "None"
  | _ => "<object>"
  end.

(** Samples for the other library parameters: no wrapping, and no
    field syntax beyond plain names. *)
Definition sample_wrap (text : string) (width : Z) : list string := [text].

Definition sample_field_syntax (name template : string) (kwargs : dict)
  : result string := Raise (ValueError "field syntax outside the samples").

(** The locals of a test method, and the stack of a failing assertion
    in it, reported on [line]. *)
Definition sample_locals : dict :=
  [("self", PObject "ExampleTestCase"); ("x", PInt 5); ("_hidden", PInt 6);
   ("message", PStr "x was {x}"); ("advice", PStr "check {x}")].

Definition sample_self : dict := [("self", PObject "ExampleTestCase")].

Definition sample_heap : heap :=
  <[1%positive := sample_locals]>
    (<[2%positive := sample_self]> {[ 3%positive := sample_self ]}).

Definition sample_stack (line : Z) : list frame :=
  [Frame "assertTrue" 2 "case.py" 700;
   Frame "wrapper" 2 "marbles.py" 333;
   Frame "test_sample" 1 "test_sample.py" line;
   Frame "run" 3 "case.py" 50].



(** A test class as [ast.parse] gives it: the module; the class of
    line 7 with its base; the method of line 8 with its arguments; in
    its body the statement of lines 10 to 13, a call with an argument on
    each of the lines 11 and 13, and the statement of line 15. *)
Definition sample_tree_test_method : ast :=
  Node false None
    [Node true (Some 7)
       [Node false (Some 7) [];
        Node true (Some 8)
          [Node false None [Node false (Some 8) []];
           Node true (Some 10)
             [Node false (Some 10)
                [Node false (Some 10) [Node false (Some 10) []];
                 Node false (Some 11) [];
                 Node false (Some 13) []]];
           Node true (Some 15)
             [Node false (Some 15)
                [Node false (Some 15) [Node false (Some 15) []]]]]]].

Definition sample_parse_test_method (source : string) : result ast :=
  OK sample_tree_test_method.


Definition sample_annotation : pyval :=
  PDict (<["message" := PStr "x was {x}"]> {["advice" := PStr "check {x}"]}).

(** * Properties *)

(** ** The annotation normaliser and the interceptor *)

Section Normalizer.
Import AnnotatedTestCase.

Lemma required_set_elem k :
  k ∈ required_set <-> k = "message" \/ k = "advice".
Proof.
  unfold required_set, AnnotatedAssertionError.REQUIRED_KEYS. simpl.
  rewrite !elem_of_union, !elem_of_singleton, elem_of_empty. tauto.
Qed.

Lemma missing_fields_empty (d : gmap string pyval) :
  required_set ∖ dom d = ∅ <->
  is_Some (d !! "message") /\ is_Some (d !! "advice").
Proof.
  rewrite <- !elem_of_dom. split.
  - intros H. split.
    + destruct (decide ("message" ∈ dom d)) as [|Hn]; [done|].
      assert ("message" ∈ required_set ∖ dom d) as Hin
        by (apply elem_of_difference; split; [apply required_set_elem; auto|done]).
      rewrite H in Hin. by apply elem_of_empty in Hin.
    + destruct (decide ("advice" ∈ dom d)) as [|Hn]; [done|].
      assert ("advice" ∈ required_set ∖ dom d) as Hin
        by (apply elem_of_difference; split; [apply required_set_elem; auto|done]).
      rewrite H in Hin. by apply elem_of_empty in Hin.
  - intros [Hm Ha]. apply set_eq. intros k.
    rewrite elem_of_difference, required_set_elem. split.
    + intros [[-> | ->] Hn]; contradiction.
    + intros Hin. by apply elem_of_empty in Hin.
Qed.

Lemma validate_dict (d : gmap string pyval) :
  _validate_annotation (PDict d) =
    if decide (required_set ∖ dom d = ∅) then OK tt
    else Raise (AnnotationError (MissingRequiredFields (required_set ∖ dom d))).
Proof. reflexivity. Qed.

Lemma coerce_dict (d : gmap string pyval) :
  _coerce_annotation_dict (PDict d) = OK (PDict d).
Proof. reflexivity. Qed.
(** C5: a two-element sequence [(m, a)] is coerced to the mapping
    [{'message': m, 'advice': a}]; a mapping is returned as it is; a
    value that is neither a sequence nor a mapping raises an
    [AnnotationError] whose message names the type of the value. *)
Theorem coerce_annotation_dict_shapes :
  (forall v m a,
      sequence_items v = Some [m; a] ->
      _coerce_annotation_dict v
      = OK (PDict (<["message" := m]> (<["advice" := a]> ∅))))
  /\ (forall d, _coerce_annotation_dict (PDict d) = OK (PDict d))
  /\ (forall v,
        sequence_items v = None -> is_mapping v = false ->
        _coerce_annotation_dict v
        = Raise (AnnotationError (TypeNotSupported
            ("Annotation type not supported: <class '" +:+ type_name v +:+ "'>")))).
Proof.
  split; [|split].
  - intros v m a Hv. unfold _coerce_annotation_dict. rewrite Hv. reflexivity.
  - apply coerce_dict.
  - intros v Hs Hm. unfold _coerce_annotation_dict. rewrite Hs, Hm. reflexivity.
Qed.

Lemma coerce_annotation_dict_shapes_witness :
  _coerce_annotation_dict (PTuple [PStr "m"; PStr "a"])
  = OK (PDict (<["message" := PStr "m"]> (<["advice" := PStr "a"]> ∅)))
  /\ _coerce_annotation_dict (PInt 3)
     = Raise (AnnotationError (TypeNotSupported
         "Annotation type not supported: <class 'int'>")).
Proof.
  destruct coerce_annotation_dict_shapes as (Hseq & _ & Hother).
  split.
  - apply Hseq. reflexivity.
  - apply (Hother (PInt 3)); reflexivity.
Defined.

(** C10: a [str] of at least two characters is a sequence, so it is
    zipped character by character against the required keys: the result
    is [{'message': s[0], 'advice': s[1]}], which then passes
    validation. *)
Theorem coerce_string_keeps_two_characters (s : string) :
  (2 <= String.length s)%nat ->
  exists c0 c1 rest,
    s = String c0 (String c1 rest)
    /\ _coerce_annotation_dict (PStr s)
       = OK (PDict (<["message" := PStr (String c0 EmptyString)]>
                      (<["advice" := PStr (String c1 EmptyString)]> ∅)))
    /\ _validate_annotation
         (PDict (<["message" := PStr (String c0 EmptyString)]>
                   (<["advice" := PStr (String c1 EmptyString)]> ∅)))
       = OK tt.
Proof.
  intros Hlen. destruct s as [|c0 [|c1 rest]]; simpl in Hlen; try lia.
  exists c0, c1, rest. split; [reflexivity|]. split.
  - unfold _coerce_annotation_dict. cbn [sequence_items str_items].
    destruct (str_items rest); reflexivity.
  - rewrite validate_dict. case_decide as Hm; [reflexivity|].
    exfalso. apply Hm. apply missing_fields_empty.
    rewrite lookup_insert_eq, lookup_insert_ne, lookup_insert_eq by done.
    split; eauto.
Qed.

Lemma coerce_string_keeps_two_characters_witness :
  exists c0 c1 rest,
    "see docs" = String c0 (String c1 rest)
    /\ _coerce_annotation_dict (PStr "see docs")
       = OK (PDict (<["message" := PStr (String c0 EmptyString)]>
                      (<["advice" := PStr (String c1 EmptyString)]> ∅)))
    /\ _validate_annotation
         (PDict (<["message" := PStr (String c0 EmptyString)]>
                   (<["advice" := PStr (String c1 EmptyString)]> ∅)))
       = OK tt.
Proof.
  apply (coerce_string_keeps_two_characters "see docs"). simpl. lia.
Defined.

(** C3, as the code has it: validation raises exactly when the
    one-sided difference of the required keys minus the keys of the
    mapping is not empty; the one error carries all the missing keys; and
    when the validation of the annotation a call settles on raises, the
    call raises that error instead of forwarding to the assertion. *)
Theorem validate_annotation_raises_iff_missing :
  (forall d : gmap string pyval,
      (raises (_validate_annotation (PDict d)) <-> required_set ∖ dom d ≠ ∅)
      /\ (forall e,
            _validate_annotation (PDict d) = Raise e ->
            e = AnnotationError (MissingRequiredFields (required_set ∖ dom d)))
      /\ (forall k,
            k ∈ required_set ∖ dom d <->
            (k = "message" \/ k = "advice") /\ d !! k = None))
  /\ (forall args kwargs annotation args' kwargs' e,
        wrapper_annotation args kwargs = OK (annotation, args', kwargs') ->
        _validate_annotation annotation = Raise e ->
        wrapper args kwargs = Raised e
        /\ forall a m k, wrapper args kwargs <> Forwarded a m k).
Proof.
  split.
  - intros d. rewrite validate_dict. split; [|split].
    + case_decide as Hm; split.
      * intros [e He]. discriminate.
      * intros Hne. contradiction.
      * intros _. exact Hm.
      * intros _. eexists. reflexivity.
    + intros e. case_decide; intros He; [discriminate|]. by injection He.
    + intros k. rewrite elem_of_difference, required_set_elem, not_elem_of_dom.
      reflexivity.
  - intros args kwargs annotation args' kwargs' e Hw Hv.
    unfold wrapper. rewrite Hw, Hv. split; [reflexivity|discriminate].
Qed.

Lemma validate_annotation_raises_iff_missing_witness :
  wrapper [PBool true; PTuple [PStr "only a message"]] ∅
  = Raised (AnnotationError (MissingRequiredFields {["advice"]})).
Proof.
  destruct validate_annotation_raises_iff_missing as [_ Hwrap].
  refine (proj1 (Hwrap [PBool true; PTuple [PStr "only a message"]] ∅
                   (PDict {["message" := PStr "only a message"]})
                   [PBool true] ∅ _ _ _)).
  - reflexivity.
  - vm_compute. reflexivity.
Defined.

(** C3, as the claim has it, fails: with a key besides the two required
    ones the symmetric difference is not empty, and validation passes. *)
Lemma validate_annotation_ignores_extra_keys :
  let d : gmap string pyval :=
    <["message" := PStr "m"]> (<["advice" := PStr "a"]> {["extra" := PNone]}) in
  (required_set ∖ dom d) ∪ (dom d ∖ required_set) ≠ ∅
  /\ _validate_annotation (PDict d) = OK tt.
Proof.
  intros d. split.
  - intros Hempty.
    assert ("extra" ∈ (required_set ∖ dom d) ∪ (dom d ∖ required_set)) as Hin.
    { apply elem_of_union_r, elem_of_difference. split.
      - apply elem_of_dom. unfold d.
        rewrite !lookup_insert_ne, lookup_singleton_eq by done. eauto.
      - rewrite required_set_elem. intros [?|?]; discriminate. }
    rewrite Hempty in Hin. by apply elem_of_empty in Hin.
  - rewrite validate_dict. case_decide as Hm; [reflexivity|].
    exfalso. apply Hm, missing_fields_empty. unfold d.
    rewrite lookup_insert_eq, lookup_insert_ne, lookup_insert_eq by done.
    split; eauto.
Qed.









End Normalizer.

(** ** Lines, [split] and [dedent] *)

Section Lines.

Lemma newline_free_app (s t : string) :
  newline_free (s +:+ t) = newline_free s && newline_free t.
Proof.
  induction s as [|c s IH]; simpl; [reflexivity|].
  rewrite IH. by rewrite andb_assoc.
Qed.

Lemma split_lines_cons (c : ascii) (s : string) :
  Ascii.eqb c nl = false ->
  exists piece pieces,
    split_lines s = piece :: pieces
    /\ split_lines (String c s) = String c piece :: pieces.
Proof.
  intros Hc. simpl. rewrite Hc.
  destruct s as [|c' s']; simpl.
  - eauto.
  - destruct (Ascii.eqb c' nl); [eauto|].
    destruct (split_lines s'); eauto.
Qed.

Lemma split_lines_not_nil (s : string) : split_lines s <> [].
Proof.
  destruct s as [|c s]; simpl; [discriminate|].
  destruct (Ascii.eqb c nl); [discriminate|].
  destruct (split_lines s); discriminate.
Qed.

(** A line and its newline in front of a text split off as one piece. *)
Lemma split_lines_line (body rest : string) :
  newline_free body = true ->
  split_lines (body +:+ NL +:+ rest) = body :: split_lines rest.
Proof.
  induction body as [|c body IH]; simpl; intros Hfree.
  - reflexivity.
  - apply andb_prop in Hfree as [Hc Hbody].
    apply negb_true_iff in Hc. rewrite Hc.
    rewrite (IH Hbody). reflexivity.
Qed.

Lemma split_lines_newline_free (s : string) :
  newline_free s = true -> split_lines s = [s].
Proof.
  induction s as [|c s IH]; simpl; intros Hfree; [reflexivity|].
  apply andb_prop in Hfree as [Hc Hs].
  apply negb_true_iff in Hc. rewrite Hc, (IH Hs). reflexivity.
Qed.

Lemma join_cons (sep x y : string) (rest : list string) :
  join sep (x :: y :: rest) = x +:+ sep +:+ join sep (y :: rest).
Proof. reflexivity. Qed.

Lemma split_lines_join (pieces : list string) :
  pieces <> [] ->
  forallb newline_free pieces = true ->
  split_lines (join NL pieces) = pieces.
Proof.
  induction pieces as [|x [|y rest] IH]; intros Hne Hfree.
  - contradiction.
  - simpl in Hfree. apply andb_prop in Hfree as [Hx _].
    apply (split_lines_newline_free _ Hx).
  - rewrite join_cons.
    cbn [forallb] in Hfree. apply andb_prop in Hfree as [Hx Hrest].
    rewrite (split_lines_line _ _ Hx). f_equal.
    apply IH; [discriminate|exact Hrest].
Qed.

Lemma append_cons (c : ascii) (s t : string) :
  String c s +:+ t = String c (s +:+ t).
Proof. reflexivity. Qed.

Lemma append_empty_r (s : string) : s +:+ EmptyString = s.
Proof.
  induction s as [|c s IH]; [reflexivity|]. by rewrite append_cons, IH.
Qed.

Lemma append_assoc (s t u : string) : (s +:+ t) +:+ u = s +:+ t +:+ u.
Proof.
  induction s as [|c s IH]; [reflexivity|]. by rewrite !append_cons, IH.
Qed.

Lemma join_empty_cons (x : string) (rest : list string) :
  join EmptyString (x :: rest) = x +:+ join EmptyString rest.
Proof.
  destruct rest; [symmetry; apply append_empty_r|reflexivity].
Qed.

(** The text of complete lines splits into the lines and one empty
    piece after the last newline. *)
Lemma split_lines_complete (bodies : list string) :
  forallb newline_free bodies = true ->
  split_lines (join EmptyString (map (fun b => b +:+ NL) bodies))
  = (bodies ++ [EmptyString])%list.
Proof.
  induction bodies as [|x rest IH]; intros Hfree; [reflexivity|].
  cbn [forallb] in Hfree. apply andb_prop in Hfree as [Hx Hrest].
  cbn [map]. rewrite join_empty_cons, append_assoc.
  rewrite (split_lines_line _ _ Hx), (IH Hrest). reflexivity.
Qed.

Lemma newline_free_substring (n m : nat) (s : string) :
  newline_free s = true -> newline_free (String.substring n m s) = true.
Proof.
  revert n m. induction s as [|c s IH]; intros n m Hfree.
  - destruct n, m; reflexivity.
  - simpl in Hfree. apply andb_prop in Hfree as [Hc Hs].
    destruct n as [|n]; [destruct m as [|m]|]; simpl.
    + reflexivity.
    + rewrite Hc. apply (IH 0%nat m Hs).
    + apply (IH n m Hs).
Qed.

Lemma dedent_lines_unfold (lines : list string) :
  dedent_lines lines =
    match fold_left narrow_margin (omap line_indent (map blank_to_empty lines)) None with
    | Some (String c m) =>
        map (strip_margin (String c m)) (map blank_to_empty lines)
    | _ => map blank_to_empty lines
    end.
Proof. reflexivity. Qed.

Lemma dedent_lines_length (lines : list string) :
  length (dedent_lines lines) = length lines.
Proof.
  rewrite dedent_lines_unfold.
  destruct (fold_left _ _ _) as [[|c m]|]; by rewrite ?length_map.
Qed.

(** The empty piece after the last newline stays as it is, and does not
    count for the margin. *)
Lemma dedent_lines_snoc_empty (lines : list string) :
  dedent_lines (lines ++ [EmptyString])
  = (dedent_lines lines ++ [EmptyString])%list.
Proof.
  rewrite !dedent_lines_unfold, map_app, omap_app. cbn [map omap].
  change (line_indent (blank_to_empty EmptyString)) with (@None string).
  cbn [app]. rewrite app_nil_r.
  destruct (fold_left _ _ _) as [[|c m]|]; try reflexivity.
  rewrite map_app. reflexivity.
Qed.

Lemma dedent_lines_newline_free (lines : list string) :
  forallb newline_free lines = true ->
  forallb newline_free (dedent_lines lines) = true.
Proof.
  intros Hfree. rewrite dedent_lines_unfold.
  assert (forallb newline_free (map blank_to_empty lines) = true) as Hblank.
  { rewrite forallb_forall in *. intros l [l0 [<- Hin]]%in_map_iff.
    unfold blank_to_empty. destruct (whitespace_only l0); [reflexivity|auto]. }
  destruct (fold_left _ _ _) as [[|c m]|]; try exact Hblank.
  rewrite forallb_forall in *. intros l [l0 [<- Hin]]%in_map_iff.
  unfold strip_margin, drop_prefix.
  destruct (startswith l0 (String c m)); [|auto].
  apply newline_free_substring. auto.
Qed.

(** What [_get_source] makes of the text of complete lines: dedented
    line by line, the piece after the last newline dropped. *)
Lemma dedented_complete_lines (bodies : list string) :
  forallb newline_free bodies = true ->
  removelast (split_lines (dedent (join EmptyString (map (fun b => b +:+ NL) bodies))))
  = dedent_lines bodies.
Proof.
  intros Hfree. unfold dedent.
  rewrite (split_lines_complete _ Hfree), dedent_lines_snoc_empty.
  rewrite split_lines_join.
  - apply removelast_last.
  - by destruct (dedent_lines bodies).
  - rewrite forallb_app, (dedent_lines_newline_free _ Hfree). reflexivity.
Qed.

End Lines.

(** ** Source reconstruction *)

Section SourceReconstruction.
Import AnnotatedAssertionError.

Variable cache : gmap string (list string).
Variable ast_parse : string -> result ast.

Lemma find_line_miss nodes statement n leading following :
  Forall (fun node => lineno node <> Some n) nodes ->
  find_line nodes statement (Some n) leading following = OK None.
Proof.
  intros Hmiss. revert statement.
  induction Hmiss as [|node nodes Hnode _ IH]; intros statement; [reflexivity|].
  cbn [find_line]. destruct (lineno node) as [l|]; [|apply IH].
  case_decide as Hl; [|apply IH]. subst l. contradiction.
Qed.

Lemma find_line_hit_from before hit after statement n leading following stmt first :
  Forall (fun node => lineno node <> Some n) before ->
  lineno hit = Some n ->
  fold_left (fun statement node => if is_stmt node then Some node else statement)
            (before ++ [hit]) statement = Some stmt ->
  lineno stmt = Some first ->
  find_line (before ++ hit :: after) statement (Some n) leading following
  = OK (Some (stmt, py_range (first - leading) (n + following))).
Proof.
  intros Hmiss Hhit. revert statement.
  induction Hmiss as [|node nodes Hnode _ IH]; intros statement Htrack Hfirst.
  - cbn [app find_line]. rewrite Hhit. case_decide; [|contradiction].
    cbn [app fold_left] in Htrack. rewrite Htrack, Hfirst. reflexivity.
  - cbn [app find_line]. cbn [app fold_left] in Htrack.
    destruct (lineno node) as [l|]; [|by apply IH].
    case_decide as Hl; [|by apply IH]. subst l. contradiction.
Qed.

(** The loop leaves through [break] at the first node of the line, with
    the statement tracked at that point. *)
Lemma find_line_hit before hit after n leading following stmt first :
  Forall (fun node => lineno node <> Some n) before ->
  lineno hit = Some n ->
  tracked_statement (before ++ [hit]) = Some stmt ->
  lineno stmt = Some first ->
  find_line (before ++ hit :: after) None (Some n) leading following
  = OK (Some (stmt, py_range (first - leading) (n + following))).
Proof. apply find_line_hit_from. Qed.

Lemma getlines_cached name lines :
  cache !! name = Some lines -> getlines cache (Some name) = lines.
Proof. intros Hname. unfold getlines. by rewrite Hname. Qed.

Lemma getline_cached name lines (i : Z) line :
  cache !! name = Some lines ->
  1 <= i ->
  lines !! Z.to_nat (i - 1) = Some line ->
  getline cache (Some name) i = line.
Proof.
  intros Hname Hi Hline. unfold getline. rewrite (getlines_cached _ _ Hname).
  pose proof (lookup_lt_Some _ _ _ Hline) as Hlt.
  case_decide as Hrange; [|lia].
  rewrite Hline. reflexivity.
Qed.

(** When no node of the tree is on the line, [source] is never bound. *)
Lemma get_source_no_match name_opt n leading following tree :
  ast_parse (join EmptyString (getlines cache name_opt)) = OK tree ->
  Forall (fun node => lineno node <> Some n) (walk tree) ->
  _get_source cache ast_parse name_opt (Some n) leading following
  = Raise (UnboundLocalError "source").
Proof.
  intros Hparse Hmiss. unfold _get_source. cbv zeta. rewrite Hparse.
  cbn [mbind result_bind].
  rewrite (find_line_miss _ _ _ _ _ Hmiss). reflexivity.
Qed.

End SourceReconstruction.

Section SourceSamples.
Import AnnotatedAssertionError.

(** C1 on the code: in the sample test class the statement of lines 10
    to 13 is followed by a statement on line 15.  The walk is breadth
    first, so it has visited that statement before it reaches the first
    node of line 13, under the statement of line 10: [statement] is the
    one of line 15, the range is [range(15 - 1, 13 + 2)], and the
    excerpt is line 14 alone, none of its lines marked.  In a module
    with the one statement alone, the excerpt is lines 9 to 14: line 15
    is left out by the half-open range. *)
Theorem get_source_test_method_excerpt :
  (exists before hit after,
      walk sample_tree_test_method = (before ++ hit :: after)%list
      /\ Forall (fun node => lineno node <> Some 13) before
      /\ lineno hit = Some 13
      /\ lineno <$> tracked_statement (before ++ [hit]) = Some (Some 15))
  /\ _get_source sample_cache sample_parse_test_method (Some "test_sample.py")
       (Some 13) 1 2
     = OK "     14 line 14"
  /\ _get_source sample_cache sample_parse (Some "test_sample.py") (Some 13) 1 2
     = OK (join NL ["      9 line 9"; " >   10 line 10"; "     11 line 11";
                    "     12 line 12"; "     13 line 13"; "     14 line 14"]).
Proof.
  split; [|split; vm_compute; reflexivity].
  exists (take 12 (walk sample_tree_test_method)), (Node false (Some 13) []),
         (drop 13 (walk sample_tree_test_method)).
  split; [vm_compute; reflexivity|]. split; [|split; vm_compute; reflexivity].
  vm_compute. repeat constructor; discriminate.
Qed.

(** The statement the walk is tracking need not be the one the line
    belongs to: here line 4 belongs to the statement on line 3, the walk
    is tracking the one on line 7, and the range is empty. *)
Example get_source_tracks_breadth_first :
  tracked_statement
    (take 9 (walk sample_tree_two_tests))
  = Some (Node true (Some 7) [Node false (Some 7) []])
  /\ _get_source sample_cache (fun _ => OK sample_tree_two_tests)
       (Some "test_sample.py") (Some 4) 1 2
     = OK EmptyString.
Proof. split; vm_compute; reflexivity. Qed.

End SourceSamples.

(** ** Stack inspection *)

Section StackInspection.
Import AnnotatedAssertionError.

Variable py_repr : pyval -> string.

Lemma find_extract (h : heap) (stack : list frame) :
  List.find (fun level => startswith (FrameSummary.name level) "test_")
            (extract py_repr h stack)
  = match List.find is_test_frame stack with
    | Some f =>
        Some (FrameSummary.Make (f_name f)
                (summary_locals py_repr (default [] (h !! f_locals f)))
                (f_filename f) (f_lineno f))
    | None => None
    end.
Proof.
  induction stack as [|f stack IH]; [reflexivity|].
  cbn [extract map List.find FrameSummary.name]. unfold is_test_frame at 1.
  destruct (startswith (f_name f) "test_"); [reflexivity|]. apply IH.
Qed.

Lemma find_first_test_frame (before after : list frame) (fr : frame) :
  Forall (fun f => is_test_frame f = false) before ->
  is_test_frame fr = true ->
  List.find is_test_frame (before ++ fr :: after) = Some fr.
Proof.
  intros Hbefore Hfr. induction Hbefore as [|f before Hf _ IH]; simpl.
  - by rewrite Hfr.
  - by rewrite Hf.
Qed.

Lemma find_no_test_frame (stack : list frame) :
  Forall (fun f => is_test_frame f = false) stack ->
  List.find is_test_frame stack = None.
Proof.
  intros Hstack. induction Hstack as [|f stack Hf _ IH]; simpl; [reflexivity|].
  by rewrite Hf.
Qed.

(** With no test frame on the stack [_get_stack] sets nothing. *)
Lemma get_stack_no_test_frame (stack : list frame) (s : heap * t) :
  Forall (fun f => is_test_frame f = false) stack ->
  _get_stack py_repr stack s = OK (tt, s).
Proof.
  intros Hstack. unfold _get_stack, mbind, M_bind, get_heap.
  rewrite find_extract, (find_no_test_frame _ Hstack). reflexivity.
Qed.

Lemma get_stack_test_frame (before after : list frame) (fr : frame)
    (h : heap) (self : t) :
  Forall (fun f => is_test_frame f = false) before ->
  is_test_frame fr = true ->
  _get_stack py_repr (before ++ fr :: after) (h, self)
  = match summary_locals py_repr (default [] (h !! f_locals fr)) with
    | None => Raise (AttributeError "copy")
    | Some snapshot =>
        OK (tt, (<[fresh (dom h) := snapshot]> h,
                 set_stack (fresh (dom h)) (f_filename fr) (f_lineno fr) self))
    end.
Proof.
  intros Hbefore Hfr. unfold _get_stack, mbind, M_bind, get_heap.
  rewrite find_extract, (find_first_test_frame _ _ _ Hbefore Hfr).
  cbn [FrameSummary.locals FrameSummary.filename FrameSummary.lineno].
  destruct (summary_locals _ _); reflexivity.
Qed.


(** Reading [locals] once a snapshot with a binding is held: no new
    walk of the stack, the snapshot as it is. *)
Lemma locals_cached (stack : list frame) (h : heap) (self : t) (l : loc)
    (d : dict) :
  _locals self = Some l ->
  h !! l = Some d ->
  d <> [] ->
  locals py_repr stack (h, self) = OK (Some d, (h, self)).
Proof.
  intros Hl Hd Hne. destruct d as [|kv d]; [contradiction|].
  unfold locals, mbind, M_bind, get_self, get_heap, mret, M_ret, no_locals.
  cbn [fst snd]. rewrite Hl, Hd. cbn. rewrite Hl. cbn. rewrite Hd. reflexivity.
Qed.

(** C6, as the code has it: when the first frame outwards whose name
    starts with [test_] has at least one local, [_get_stack] stores a new
    dictionary with the [repr] of each of its locals, its file name and
    its line number, whatever frames follow; and [locals] keeps returning
    that snapshot whatever is later written over the dictionaries that
    existed before, the live frame's among them. *)
Theorem get_stack_first_test_frame
    (before after : list frame) (fr : frame) (h : heap) (self : t) (d : dict) :
  Forall (fun f => is_test_frame f = false) before ->
  is_test_frame fr = true ->
  h !! (f_locals fr) = Some d ->
  d <> [] ->
  let snapshot := map (fun '(k, v) => (k, PStr (py_repr v))) d in
  exists (copy : loc) (self' : t),
    _get_stack py_repr (before ++ fr :: after) (h, self)
    = OK (tt, (<[copy := snapshot]> h, self'))
    /\ (copy ∉ dom h)
    /\ _locals self' = Some copy
    /\ _filename self' = Some (f_filename fr)
    /\ _linenumber self' = Some (f_lineno fr)
    /\ forall (stack' : list frame) (l : loc) (d' : dict),
         l ∈ dom h ->
         locals py_repr stack' (<[l := d']> (<[copy := snapshot]> h), self')
         = OK (Some snapshot, (<[l := d']> (<[copy := snapshot]> h), self')).
Proof.
  intros Hbefore Hfr Hd Hne. cbv zeta.
  exists (fresh (dom h)), (set_stack (fresh (dom h)) (f_filename fr) (f_lineno fr) self).
  rewrite (get_stack_test_frame _ _ _ _ _ Hbefore Hfr), Hd.
  destruct d as [|kv d]; [contradiction|]. cbn [default summary_locals].
  split; [reflexivity|]. split; [apply is_fresh|].
  do 3 (split; [reflexivity|]).
  intros stack' l d' Hl. apply (locals_cached _ _ _ (fresh (dom h))).
  - reflexivity.
  - rewrite lookup_insert_ne, lookup_insert_eq; [reflexivity|].
    intros ->. by apply (is_fresh (dom h)).
  - destruct kv. discriminate.
Qed.

End StackInspection.

Section StackSamples.
Import AnnotatedAssertionError.

Lemma get_stack_first_test_frame_witness :
  exists (copy : loc) (self' : t),
    _get_stack sample_repr (sample_stack 13)
      (sample_heap, Make sample_annotation "False is not true" None None None None None)
    = OK (tt, (<[copy := map (fun '(k, v) => (k, PStr (sample_repr v))) sample_locals]>
                 sample_heap, self'))
    /\ _locals self' = Some copy
    /\ _filename self' = Some "test_sample.py"
    /\ _linenumber self' = Some 13.
Proof.
  destruct (get_stack_first_test_frame sample_repr
              [Frame "assertTrue" 2 "case.py" 700; Frame "wrapper" 2 "marbles.py" 333]
              [Frame "run" 3 "case.py" 50]
              (Frame "test_sample" 1 "test_sample.py" 13)
              sample_heap
              (Make sample_annotation "False is not true" None None None None None)
              sample_locals)
    as (copy & self' & Hrun & _ & Hl & Hf & Hn & _).
  - repeat constructor.
  - reflexivity.
  - reflexivity.
  - discriminate.
  - exists copy, self'. repeat split; assumption.
Defined.

(** C6, as the claim has it, fails: for a frame without locals
    [FrameSummary.locals] is [None], and [_get_stack] raises. *)
Lemma get_stack_test_frame_without_locals :
  is_test_frame (Frame "test_sample" 1 "test_sample.py" 13) = true
  /\ _get_stack sample_repr [Frame "test_sample" 1 "test_sample.py" 13]
       ({[ 1%positive := [] ]},
        Make sample_annotation "False is not true" None None None None None)
     = Raise (AttributeError "copy").
Proof. split; reflexivity. Qed.

End StackSamples.

(** ** Templates *)

Section Templates.
Variable py_repr : pyval -> string.
Variable format_field_syntax : string -> string -> dict -> result string.

Lemma format_from_field_char (c : ascii) (rest name : string) (kwargs : dict) :
  Ascii.eqb c "}" = false ->
  starts_field_syntax c = false ->
  format_from py_repr format_field_syntax (String c rest) (Some name) kwargs
  = format_from py_repr format_field_syntax rest
      (Some (name +:+ String c EmptyString)) kwargs.
Proof. intros Hclose Hsyntax. cbn [format_from]. by rewrite Hclose, Hsyntax. Qed.

Lemma format_from_field_end (rest name : string) (kwargs : dict) :
  format_from py_repr format_field_syntax (String "}" rest) (Some name) kwargs
  = (value ← field_value py_repr name kwargs;
     out ← format_from py_repr format_field_syntax rest None kwargs;
     OK (value +:+ out)).
Proof. reflexivity. Qed.

Lemma format_from_field_start (c : ascii) (rest : string) (kwargs : dict) :
  Ascii.eqb c "{" = false ->
  format_from py_repr format_field_syntax (String "{" (String c rest)) None kwargs
  = format_from py_repr format_field_syntax (String c rest)
      (Some EmptyString) kwargs.
Proof.
  intros Hopen.
  change (format_from py_repr format_field_syntax
            (String "{" (String c rest)) None kwargs)
    with (if Ascii.eqb c "{"
          then out ← format_from py_repr format_field_syntax rest None kwargs;
               OK (String "{" out)
          else format_from py_repr format_field_syntax (String c rest)
                 (Some EmptyString) kwargs).
  by rewrite Hopen.
Qed.

(** Inside a field, a plain name up to the closing brace is looked up
    as one keyword. *)
Lemma format_from_plain_field (k read rest : string) (kwargs : dict) :
  plain_chars k = true ->
  format_from py_repr format_field_syntax (k +:+ String "}" rest) (Some read) kwargs
  = (value ← field_value py_repr (read +:+ k) kwargs;
     out ← format_from py_repr format_field_syntax rest None kwargs;
     OK (value +:+ out)).
Proof.
  revert read. induction k as [|c k IH]; intros read Hplain.
  - rewrite append_empty_r. apply format_from_field_end.
  - cbn [plain_chars] in Hplain.
    apply andb_prop in Hplain as [[Hclose Hsyntax]%andb_prop Hk].
    apply negb_true_iff in Hclose, Hsyntax.
    rewrite append_cons, (format_from_field_char _ _ _ _ Hclose Hsyntax).
    rewrite (IH _ Hk), append_assoc. reflexivity.
Qed.

End Templates.

(** ** Templates of plain fields *)

Section Pieces.
Variable py_repr : pyval -> string.
Variable format_field_syntax : string -> string -> dict -> result string.

Lemma dict_get_snapshot (d : dict) (k : string) :
  dict_get (map (fun '(k, v) => (k, PStr (py_repr v))) d) k
  = (fun v => PStr (py_repr v)) <$> dict_get d k.
Proof.
  induction d as [|[k' v] d IH]; [reflexivity|].
  cbn [map dict_get]. destruct (String.eqb k' k); [reflexivity|apply IH].
Qed.

Lemma field_value_snapshot (name : string) (d : dict) :
  field_value py_repr name (map (fun '(k, v) => (k, PStr (py_repr v))) d)
  = expand_piece py_repr d (Field name).
Proof.
  unfold field_value, expand_piece. destruct (all_digits name); [reflexivity|].
  rewrite dict_get_snapshot. by destruct (dict_get d name).
Qed.

(** Literal text without a brace is copied. *)
Lemma format_from_text (s rest : string) (kwargs : dict) :
  brace_free s = true ->
  format_from py_repr format_field_syntax (s +:+ rest) None kwargs
  = (out ← format_from py_repr format_field_syntax rest None kwargs;
     OK (s +:+ out)).
Proof.
  induction s as [|c s IH]; intros Hfree.
  - change (EmptyString +:+ rest) with rest.
    by destruct (format_from _ _ rest None kwargs).
  - cbn [brace_free] in Hfree.
    apply andb_prop in Hfree as [[Hopen Hclose]%andb_prop Hs].
    apply negb_true_iff in Hopen, Hclose.
    rewrite append_cons. cbn [format_from]. rewrite Hopen, Hclose, (IH Hs).
    by destruct (format_from _ _ rest None kwargs).
Qed.

(** A field that is a plain name is looked up as one keyword. *)
Lemma format_from_field (k rest : string) (kwargs : dict) :
  plain_chars k = true ->
  format_from py_repr format_field_syntax (("{" +:+ k +:+ "}") +:+ rest) None kwargs
  = (value ← field_value py_repr k kwargs;
     out ← format_from py_repr format_field_syntax rest None kwargs;
     OK (value +:+ out)).
Proof.
  intros Hplain.
  assert (("{" +:+ k +:+ "}") +:+ rest = String "{" (k +:+ String "}" rest)) as ->.
  { change ("{" +:+ k +:+ "}") with (String "{" (k +:+ "}")).
    by rewrite append_cons, append_assoc. }
  assert (exists c tail, k +:+ String "}" rest = String c tail
                         /\ Ascii.eqb c "{" = false) as (c & tail & Heq & Hopen).
  { destruct k as [|c k].
    - by exists "}"%char, rest.
    - exists c, (k +:+ String "}" rest). split; [reflexivity|].
      cbn [plain_chars] in Hplain.
      apply andb_prop in Hplain as [[_ Hsyntax]%andb_prop _].
      apply negb_true_iff in Hsyntax. unfold starts_field_syntax in Hsyntax.
      by apply orb_false_elim in Hsyntax as [_ ?]. }
  rewrite Heq, (format_from_field_start _ _ _ _ _ Hopen), <- Heq.
  by rewrite (format_from_plain_field _ _ _ _ _ _ Hplain).
Qed.

(** A template of pieces followed by any text: the pieces expand from
    left to right, the first error ends the formatting, and the rest is
    formatted after them. *)
Lemma format_from_pieces (ps : list piece) (rest : string) (d : dict) :
  forallb piece_ok ps = true ->
  format_from py_repr format_field_syntax (template_text ps +:+ rest) None
    (map (fun '(k, v) => (k, PStr (py_repr v))) d)
  = (value ← expand py_repr d ps;
     out ← format_from py_repr format_field_syntax rest None
             (map (fun '(k, v) => (k, PStr (py_repr v))) d);
     OK (value +:+ out)).
Proof.
  induction ps as [|p ps IH]; intros Hok.
  - change (template_text [] +:+ rest) with rest. cbn [expand mbind result_bind].
    by destruct (format_from _ _ rest None _).
  - cbn [forallb] in Hok. apply andb_prop in Hok as [Hp Hps].
    cbn [template_text foldr]. fold (template_text ps).
    rewrite append_assoc. cbn [expand].
    assert (format_from py_repr format_field_syntax
              (piece_text p +:+ template_text ps +:+ rest) None
              (map (fun '(k, v) => (k, PStr (py_repr v))) d)
            = (value ← expand_piece py_repr d p;
               out ← format_from py_repr format_field_syntax
                       (template_text ps +:+ rest) None
                       (map (fun '(k, v) => (k, PStr (py_repr v))) d);
               OK (value +:+ out))) as ->.
    { destruct p as [s|k| |]; cbn [piece_text piece_ok expand_piece] in *.
      - by rewrite (format_from_text _ _ _ Hp).
      - rewrite (format_from_field _ _ _ Hp).
        by rewrite field_value_snapshot.
      - reflexivity.
      - reflexivity. }
    rewrite (IH Hps).
    destruct (expand_piece py_repr d p) as [v|e]; [|reflexivity].
    cbn [mbind result_bind].
    destruct (expand py_repr d ps) as [v'|e]; [|reflexivity].
    cbn [mbind result_bind].
    destruct (format_from _ _ rest None _) as [out|e]; [|reflexivity].
    cbn [mbind result_bind]. by rewrite append_assoc.
Qed.

Lemma str_format_pieces (ps : list piece) (d : dict) :
  forallb piece_ok ps = true ->
  str_format py_repr format_field_syntax (template_text ps)
    (Some (map (fun '(k, v) => (k, PStr (py_repr v))) d))
  = expand py_repr d ps.
Proof.
  intros Hok. unfold str_format.
  rewrite <- (append_empty_r (template_text ps)), (format_from_pieces _ _ _ Hok).
  destruct (expand py_repr d ps) as [v|e]; [|reflexivity].
  cbn [mbind result_bind format_from]. by rewrite append_empty_r.
Qed.

(** The first field whose name is not bound ends the formatting with
    the [KeyError] of that name, whatever follows it. *)
Lemma str_format_unbound_name (ps : list piece) (k rest : string) (d : dict)
    (text : string) :
  forallb piece_ok ps = true ->
  expand py_repr d ps = OK text ->
  plain_name k = true ->
  dict_get d k = None ->
  str_format py_repr format_field_syntax
    (template_text ps +:+ ("{" +:+ k +:+ "}") +:+ rest)
    (Some (map (fun '(k, v) => (k, PStr (py_repr v))) d))
  = Raise (KeyError k).
Proof.
  intros Hok Hps [Hplain Hdigits]%andb_prop Hget.
  apply negb_true_iff in Hdigits. unfold str_format.
  rewrite (format_from_pieces _ _ _ Hok), Hps. cbn [mbind result_bind].
  rewrite (format_from_field _ _ _ Hplain), field_value_snapshot.
  cbn [expand_piece]. by rewrite Hdigits, Hget.
Qed.

(** With every field bound the pieces expand, a field to the [repr] of
    its value. *)
Lemma expand_bound (ps : list piece) (d : dict) :
  Forall (fun k => plain_name k = true /\ is_Some (dict_get d k))
         (field_names ps) ->
  expand py_repr d ps = OK (expansion py_repr d ps).
Proof.
  induction ps as [|p ps IH]; intros Hbound; [reflexivity|].
  cbn [expand expansion].
  destruct p as [s|k| |]; cbn [field_names omap] in Hbound;
    cbn [expand_piece expansion_piece mbind result_bind].
  - by rewrite (IH Hbound).
  - apply Forall_cons in Hbound as [[[_ Hdigits%negb_true_iff]%andb_prop [v Hv]] Hps].
    rewrite Hdigits, Hv. cbn [mbind result_bind]. by rewrite (IH Hps).
  - by rewrite (IH Hbound).
  - by rewrite (IH Hbound).
Qed.

End Pieces.

(** ** The failure object *)

Section Failure.
Import AnnotatedAssertionError.

Variable py_repr : pyval -> string.
Variable wrap : string -> Z -> list string.
Variable format_field_syntax : string -> string -> dict -> result string.
Variable cache : gmap string (list string).
Variable ast_parse : string -> result ast.

Lemma bind_OK {A B : Type} (m : M A) (k : A -> M B) (s s' : heap * t) (b : B) :
  (m ≫= k) s = OK (b, s') ->
  exists a s1, m s = OK (a, s1) /\ k a s1 = OK (b, s').
Proof.
  unfold mbind, M_bind. destruct (m s) as [[a s1]|e]; [|discriminate]. eauto.
Qed.

Lemma bind_run {A B : Type} (m : M A) (k : A -> M B) (s s1 : heap * t) (a : A) :
  m s = OK (a, s1) -> (m ≫= k) s = k a s1.
Proof. unfold mbind, M_bind. by intros ->. Qed.

Lemma bind_raise {A B : Type} (m : M A) (k : A -> M B) (s : heap * t) (e : exn) :
  m s = Raise e -> (m ≫= k) s = Raise e.
Proof. unfold mbind, M_bind. by intros ->. Qed.

(** *** The annotation and its entries *)

Lemma dict_get_set_eq (d : dict) (key : string) (x : pyval) :
  dict_get (dict_set d key x) key = Some x.
Proof.
  induction d as [|[k v] d IH]; cbn [dict_set dict_get].
  - by rewrite String.eqb_refl.
  - destruct (String.eqb k key) eqn:Hk; cbn [dict_get]; rewrite Hk; [reflexivity|exact IH].
Qed.

Lemma dict_get_set_ne (d : dict) (key key' : string) (x : pyval) :
  key' <> key ->
  dict_get (dict_set d key x) key' = dict_get d key'.
Proof.
  intros Hne. induction d as [|[k v] d IH]; cbn [dict_set dict_get].
  - destruct (String.eqb key key') eqn:Hk; [|reflexivity].
    apply String.eqb_eq in Hk. by destruct Hne.
  - destruct (String.eqb k key) eqn:Hk; cbn [dict_get].
    + apply String.eqb_eq in Hk as ->.
      destruct (String.eqb key key') eqn:Hk'; [|reflexivity].
      apply String.eqb_eq in Hk'. by destruct Hne.
    + by rewrite IH.
Qed.

Lemma annotation_getitem_item (s : heap * t) (key : string) (x : pyval) :
  annotation_item s key = Some x ->
  annotation_getitem (_annotation s.2) key s = OK (x, s).
Proof.
  unfold annotation_item, annotation_getitem.
  destruct (_annotation s.2) as [v|l].
  - destruct v; try discriminate. unfold lift. cbn [getitem]. by intros ->.
  - unfold mbind, M_bind, get_heap. cbn [fst snd].
    destruct (s.1 !! l) as [d|]; [|discriminate].
    change (default [] (Some d)) with d. cbn [mbind option_bind].
    by intros ->.
Qed.

Lemma annotation_getitem_missing (s : heap * t) (d : gmap string pyval)
    (key : string) :
  _annotation s.2 = Unshared (PDict d) ->
  d !! key = None ->
  annotation_getitem (_annotation s.2) key s = Raise (KeyError key).
Proof.
  intros -> Hkey. unfold annotation_getitem, lift. cbn [getitem]. by rewrite Hkey.
Qed.

Lemma annotation_setitem_item (s : heap * t) (key key0 : string) (x : pyval) :
  is_Some (annotation_item s key0) ->
  annotation_setitem key x s = OK (tt, with_item key x s).
Proof.
  unfold annotation_item, annotation_setitem, with_item.
  unfold mbind, M_bind, get_self. cbn [fst snd].
  destruct (_annotation s.2) as [v|l]; [|reflexivity].
  destruct v; intros [? Hsome]; try discriminate Hsome. reflexivity.
Qed.

Lemma with_item_eq (s : heap * t) (key key0 : string) (x : pyval) :
  is_Some (annotation_item s key0) ->
  annotation_item (with_item key x s) key = Some x.
Proof.
  unfold annotation_item, with_item.
  destruct (_annotation s.2) as [v|l] eqn:Hann.
  - destruct v; intros [? Hsome]; try discriminate Hsome.
    cbn [snd set_annotation _annotation]. apply lookup_insert_eq.
  - intros _. cbn [fst snd]. rewrite Hann, lookup_insert_eq.
    cbn [mbind option_bind]. apply dict_get_set_eq.
Qed.

Lemma with_item_ne (s : heap * t) (key key' : string) (x : pyval) :
  key' <> key ->
  is_Some (annotation_item s key') ->
  annotation_item (with_item key x s) key' = annotation_item s key'.
Proof.
  unfold annotation_item, with_item. intros Hne.
  destruct (_annotation s.2) as [v|l] eqn:Hann.
  - destruct v; intros [? Hsome]; try discriminate Hsome.
    cbn [snd set_annotation _annotation]. by rewrite lookup_insert_ne.
  - cbn [fst snd]. rewrite Hann, lookup_insert_eq.
    destruct (s.1 !! l) as [d|]; intros [? Hsome]; [|discriminate Hsome].
    cbn [mbind option_bind default]. by apply dict_get_set_ne.
Qed.

(** Writing an entry changes the annotation and nothing else: the other
    attributes are kept, and so is every dictionary but the one the
    annotation is. *)
Lemma with_item_attributes (s : heap * t) (key : string) (x : pyval) :
  _msg (with_item key x s).2 = _msg s.2
  /\ _locals (with_item key x s).2 = _locals s.2
  /\ _filename (with_item key x s).2 = _filename s.2
  /\ _linenumber (with_item key x s).2 = _linenumber s.2
  /\ _assert_expr (with_item key x s).2 = _assert_expr s.2
  /\ _formatted_msg (with_item key x s).2 = _formatted_msg s.2.
Proof.
  unfold with_item. destruct (_annotation s.2) as [[]|]; by repeat split.
Qed.

Lemma with_item_heap (s : heap * t) (key : string) (x : pyval) (l : loc) :
  _annotation s.2 <> InHeap l ->
  (with_item key x s).1 !! l = s.1 !! l.
Proof.
  unfold with_item. intros Hne.
  destruct (_annotation s.2) as [[]|l']; try reflexivity.
  cbn [fst]. apply lookup_insert_ne. by intros ->.
Qed.

Lemma with_item_annotation (s : heap * t) (key : string) (x : pyval) (l : loc) :
  _annotation (with_item key x s).2 = InHeap l <-> _annotation s.2 = InHeap l.
Proof.
  unfold with_item. destruct (_annotation s.2) as [[]|l'] eqn:Hann;
    cbn [snd set_annotation _annotation]; rewrite ?Hann; split; congruence.
Qed.

(** An annotation with an entry is no dictionary that is yet to be
    made. *)
Lemma annotation_item_allocated (s : heap * t) (key : string) (l : loc) :
  is_Some (annotation_item s key) ->
  _annotation s.2 = InHeap l ->
  l <> fresh (dom s.1).
Proof.
  unfold annotation_item. intros Hsome Hann Heq. rewrite Hann in Hsome.
  destruct (s.1 !! l) as [d|] eqn:Hl; [|by destruct Hsome].
  apply (is_fresh (dom s.1)). rewrite <- Heq. apply elem_of_dom. eauto.
Qed.

Lemma annotation_item_capture (h : heap) (self : t) (key key0 : string)
    (snapshot : dict) (file : string) (line : Z) :
  is_Some (annotation_item (h, self) key0) ->
  annotation_item (<[fresh (dom h) := snapshot]> h,
                   set_stack (fresh (dom h)) file line self) key
  = annotation_item (h, self) key.
Proof.
  intros Hsome. unfold annotation_item. cbn [fst snd set_stack _annotation].
  destruct (_annotation self) as [v|l] eqn:Hann; [reflexivity|].
  rewrite lookup_insert_ne; [reflexivity|].
  intros Heq. by apply (annotation_item_allocated (h, self) key0 l Hsome Hann).
Qed.

(** *** [locals] and [_format_annotation] *)

(** Reading [locals] with nothing captured and no test frame on the
    stack: still Python's [None]. *)
Lemma locals_without_test_frame (stack : list frame) (h : heap) (self : t) :
  Forall (fun f => is_test_frame f = false) stack ->
  _locals self = None ->
  locals py_repr stack (h, self) = OK (None, (h, self)).
Proof.
  intros Hstack Hnone.
  unfold locals, mbind, M_bind, get_self, get_heap, mret, M_ret, no_locals.
  cbn [fst snd]. rewrite Hnone.
  rewrite (get_stack_no_test_frame py_repr _ _ Hstack).
  cbn [fst snd]. rewrite Hnone. reflexivity.
Qed.

(** The first reading of [locals] with a test frame on the stack
    captures the snapshot of that frame. *)
Lemma locals_capture (before after : list frame) (fr : frame) (h : heap)
    (self : t) (d : dict) :
  Forall (fun f => is_test_frame f = false) before ->
  is_test_frame fr = true ->
  h !! (f_locals fr) = Some d ->
  d <> [] ->
  _locals self = None ->
  locals py_repr (before ++ fr :: after) (h, self)
  = OK (Some (map (fun '(k, v) => (k, PStr (py_repr v))) d),
        (<[fresh (dom h) := map (fun '(k, v) => (k, PStr (py_repr v))) d]> h,
         set_stack (fresh (dom h)) (f_filename fr) (f_lineno fr) self)).
Proof.
  intros Hbefore Hfr Hd Hne Hnone.
  unfold locals, mbind at 1, M_bind at 1, get_self at 1. cbn [fst snd].
  unfold mbind at 1, M_bind at 1, get_heap at 1. cbn [fst snd].
  unfold no_locals. rewrite Hnone.
  unfold mbind at 1, M_bind at 1.
  rewrite (get_stack_test_frame py_repr _ _ _ _ _ Hbefore Hfr), Hd.
  destruct d as [|kv d]; [contradiction|]. cbn [default summary_locals].
  unfold mbind, M_bind, get_self, get_heap, mret, M_ret. cbn [fst snd set_stack _locals].
  cbn. by rewrite lookup_insert_eq.
Qed.

(** With no test frame on the stack the message template is never
    looked at: unpacking [None] raises first. *)
Lemma format_annotation_without_test_frame
    (stack : list frame) (h : heap) (self : t) (template : string) :
  Forall (fun f => is_test_frame f = false) stack ->
  _locals self = None ->
  annotation_item (h, self) "message" = Some (PStr template) ->
  _format_annotation py_repr wrap format_field_syntax stack (h, self)
  = Raise (TypeError "format() argument after ** must be a mapping, not NoneType").
Proof.
  intros Hstack Hnone Hmsg.
  unfold _format_annotation.
  rewrite (bind_run get_self _ (h, self) (h, self) self eq_refl).
  rewrite (bind_run _ _ _ _ _ (annotation_getitem_item (h, self) _ _ Hmsg)).
  rewrite (bind_run (lift (format_method (PStr template))) _ _ (h, self) template eq_refl).
  rewrite (bind_run _ _ _ _ _ (locals_without_test_frame _ _ _ Hstack Hnone)).
  reflexivity.
Qed.

Lemma init_without_test_frame
    (stack : list frame) (h : heap) (a : annotation_object)
    (template msg : string) :
  Forall (fun f => is_test_frame f = false) stack ->
  annotation_item (h, Make a msg None None None None None) "message"
  = Some (PStr template) ->
  __init__ py_repr wrap format_field_syntax cache ast_parse stack (a, msg) h
  = Raise (TypeError "format() argument after ** must be a mapping, not NoneType").
Proof.
  intros Hstack Hmsg. unfold __init__. cbn [fst snd].
  apply bind_raise.
  by apply (format_annotation_without_test_frame stack h _ template).
Qed.

Lemma shown_local_excluded (k : string) :
  k ∈ _IGNORE_LOCALS \/ startswith k "_" = true ->
  shown_local k = false.
Proof.
  intros [Hin|Hunder]; unfold shown_local.
  - by rewrite (bool_decide_eq_true_2 _ Hin).
  - rewrite Hunder. apply andb_false_r.
Qed.

Lemma format_locals_cached (stack : list frame) (h : heap) (self : t)
    (l : loc) (d : dict) :
  _locals self = Some l ->
  h !! l = Some d ->
  d <> [] ->
  _format_locals py_repr stack (h, self)
  = OK (join (NL +:+ TAB)
          (map (fun '(k, v) => k +:+ "=" +:+ py_str py_repr v)
               (List.filter (fun '(k, v) => shown_local k) d)),
        (h, self)).
Proof.
  intros Hl Hd Hne. unfold _format_locals, mbind, M_bind.
  rewrite (locals_cached py_repr stack h self l d Hl Hd Hne). reflexivity.
Qed.

Lemma filter_snapshot (d : dict) :
  List.filter (fun '(k, v) => shown_local k)
    (map (fun '(k, v) => (k, PStr (py_repr v))) d)
  = map (fun '(k, v) => (k, PStr (py_repr v)))
      (List.filter (fun '(k, v) => shown_local k) d).
Proof.
  induction d as [|[k v] d IH]; [reflexivity|].
  cbn [map List.filter]. destruct (shown_local k); cbn [map]; by rewrite IH.
Qed.

(** The Locals section of a held snapshot lists the locals of the frame
    it was taken of. *)
Lemma format_locals_snapshot (stack : list frame) (h : heap) (self : t)
    (l : loc) (d : dict) :
  _locals self = Some l ->
  h !! l = Some (map (fun '(k, v) => (k, PStr (py_repr v))) d) ->
  d <> [] ->
  _format_locals py_repr stack (h, self)
  = OK (locals_listing py_repr d, (h, self)).
Proof.
  intros Hl Hd Hne.
  rewrite (format_locals_cached stack h self l _ Hl Hd)
    by (destruct d; [contradiction|discriminate]).
  unfold locals_listing. rewrite filter_snapshot, map_map.
  do 3 f_equal. apply map_ext. by intros [k v].
Qed.

Lemma format_annotation_message_error
    (before after : list frame) (fr : frame) (h : heap) (d : dict)
    (self : t) (message : string) (e : exn) :
  Forall (fun f => is_test_frame f = false) before ->
  is_test_frame fr = true ->
  h !! (f_locals fr) = Some d ->
  d <> [] ->
  _locals self = None ->
  annotation_item (h, self) "message" = Some (PStr message) ->
  str_format py_repr format_field_syntax message
    (Some (map (fun '(k, v) => (k, PStr (py_repr v))) d)) = Raise e ->
  _format_annotation py_repr wrap format_field_syntax (before ++ fr :: after)
    (h, self)
  = Raise e.
Proof.
  intros Hbefore Hfr Hd Hne Hnone Hmsg Hfmt.
  unfold _format_annotation.
  rewrite (bind_run get_self _ (h, self) (h, self) self eq_refl).
  rewrite (bind_run _ _ _ _ _ (annotation_getitem_item (h, self) _ _ Hmsg)).
  rewrite (bind_run (lift (format_method (PStr message))) _ _ (h, self) message eq_refl).
  rewrite (bind_run _ _ _ _ _ (locals_capture _ _ _ _ _ _ Hbefore Hfr Hd Hne Hnone)).
  apply bind_raise. unfold lift. by rewrite Hfmt.
Qed.

Lemma format_annotation_fresh
    (before after : list frame) (fr : frame) (h : heap) (d : dict)
    (self : t) (message advice formatted_message : string) :
  Forall (fun f => is_test_frame f = false) before ->
  is_test_frame fr = true ->
  h !! (f_locals fr) = Some d ->
  d <> [] ->
  _locals self = None ->
  annotation_item (h, self) "message" = Some (PStr message) ->
  annotation_item (h, self) "advice" = Some (PStr advice) ->
  str_format py_repr format_field_syntax message
    (Some (map (fun '(k, v) => (k, PStr (py_repr v))) d))
  = OK formatted_message ->
  _format_annotation py_repr wrap format_field_syntax (before ++ fr :: after)
    (h, self)
  = match str_format py_repr format_field_syntax advice
            (Some (map (fun '(k, v) => (k, PStr (py_repr v))) d)) with
    | Raise e => Raise e
    | OK formatted_advice =>
        OK (tt, with_item "advice"
                  (PStr (join (NL +:+ TAB) (wrap formatted_advice 64)))
                  (with_item "message"
                     (PStr (join NL (wrap formatted_message 74)))
                     (captured py_repr h fr d self)))
    end.
Proof.
  intros Hbefore Hfr Hd Hne Hnone Hmsg Hadv Hfmt.
  assert (map (fun '(k, v) => (k, PStr (py_repr v))) d <> []) as Hsne
    by (destruct d; [contradiction|discriminate]).
  assert (annotation_item (captured py_repr h fr d self) "message" = Some (PStr message))
    as Hmsg1 by (unfold captured; rewrite (annotation_item_capture _ _ _ "message");
                 [exact Hmsg|rewrite Hmsg; eauto]).
  assert (annotation_item (captured py_repr h fr d self) "advice" = Some (PStr advice))
    as Hadv1 by (unfold captured; rewrite (annotation_item_capture _ _ _ "message");
                 [exact Hadv|rewrite Hmsg; eauto]).
  assert (locals py_repr (before ++ fr :: after) (captured py_repr h fr d self)
          = OK (Some (map (fun '(k, v) => (k, PStr (py_repr v))) d),
                captured py_repr h fr d self)) as Hlocals
    by (apply (locals_cached py_repr _ _ _ (fresh (dom h)));
        [reflexivity|apply lookup_insert_eq|exact Hsne]).
  unfold _format_annotation.
  rewrite (bind_run get_self _ (h, self) (h, self) self eq_refl).
  rewrite (bind_run _ _ _ _ _ (annotation_getitem_item (h, self) _ _ Hmsg)).
  rewrite (bind_run (lift (format_method (PStr message))) _ _ (h, self) message eq_refl).
  rewrite (bind_run _ _ _ _ _ (locals_capture _ _ _ _ _ _ Hbefore Hfr Hd Hne Hnone)).
  fold (captured py_repr h fr d self).
  rewrite (bind_run (lift _) _ _ (captured py_repr h fr d self) formatted_message)
    by (unfold lift; by rewrite Hfmt).
  rewrite (bind_run get_self _ _ (captured py_repr h fr d self) (captured py_repr h fr d self).2 eq_refl).
  rewrite (bind_run _ _ _ _ _ (annotation_getitem_item _ _ _ Hadv1)).
  rewrite (bind_run (lift (format_method (PStr advice))) _ _
             (captured py_repr h fr d self) advice eq_refl).
  rewrite (bind_run _ _ _ _ _ Hlocals).
  destruct (str_format py_repr format_field_syntax advice _) as [fa|e];
    [|by apply bind_raise].
  rewrite (bind_run (lift (OK fa)) _ _ (captured py_repr h fr d self) fa eq_refl).
  rewrite (bind_run _ _ _ _ _
             (annotation_setitem_item _ "message" "message" _
                ltac:(rewrite Hmsg1; eauto))).
  apply (annotation_setitem_item _ "advice" "advice").
  rewrite with_item_ne by (done || rewrite Hadv1; eauto). rewrite Hadv1. eauto.
Qed.

(** The state with the two entries written. *)
Lemma written_state (h : heap) (fr : frame) (d : dict) (self : t)
    (message advice : pyval) (key : string) :
  is_Some (annotation_item (h, self) key) ->
  let s := with_item "advice" advice
             (with_item "message" message (captured py_repr h fr d self)) in
  annotation_item s "message" = Some message
  /\ annotation_item s "advice" = Some advice
  /\ s.1 !! fresh (dom h) = Some (map (fun '(k, v) => (k, PStr (py_repr v))) d)
  /\ _locals s.2 = Some (fresh (dom h))
  /\ _filename s.2 = Some (f_filename fr)
  /\ _linenumber s.2 = Some (f_lineno fr)
  /\ _msg s.2 = _msg self
  /\ _assert_expr s.2 = _assert_expr self
  /\ _formatted_msg s.2 = _formatted_msg self.
Proof.
  intros Hsome s.
  assert (is_Some (annotation_item (captured py_repr h fr d self) key)) as Hsome1.
  { unfold captured. by rewrite (annotation_item_capture _ _ _ key). }
  assert (is_Some (annotation_item
                     (with_item "message" message (captured py_repr h fr d self))
                     "message")) as Hsome2.
  { rewrite (with_item_eq _ _ key); eauto. }
  assert (_annotation self <> InHeap (fresh (dom h))) as Hne.
  { intros Hann. by apply (annotation_item_allocated (h, self) key _ Hsome Hann). }
  destruct (with_item_attributes
              (with_item "message" message (captured py_repr h fr d self))
              "advice" advice) as (Hm2 & Hl2 & Hf2 & Hn2 & He2 & Ht2).
  destruct (with_item_attributes (captured py_repr h fr d self) "message" message)
    as (Hm1 & Hl1 & Hf1 & Hn1 & He1 & Ht1).
  subst s. split; [|split; [|split]].
  - rewrite with_item_ne by (done || eauto). by apply (with_item_eq _ _ key).
  - by apply (with_item_eq _ _ "message").
  - rewrite with_item_heap, with_item_heap; [apply lookup_insert_eq|exact Hne|].
    by rewrite with_item_annotation.
  - rewrite Hm2, Hl2, Hf2, Hn2, He2, Ht2, Hm1, Hl1, Hf1, Hn1, He1, Ht1.
    by repeat split.
Qed.

(** C8: the failure object [__init__] has made formats its templates
    with a test frame on the stack.  The Locals section lists the locals
    of that frame that pass the filter, as [name=repr]: no local whose
    name is reserved or starts with an underscore has an entry.  The
    two templates, whatever they are, are formatted against the snapshot
    of all the locals of the frame, and the annotation is left with what
    they format to, wrapped and joined.  In a template of literal text,
    doubled braces and fields that are plain names, every field that
    names a local, one with a reserved name or a leading underscore
    included, expands to the [repr] of its value. *)
Theorem excluded_locals_hidden_but_usable
    (before after : list frame) (fr : frame) (h : heap) (d : dict)
    (a : annotation_object) (msg message advice : string) :
  Forall (fun f => is_test_frame f = false) before ->
  is_test_frame fr = true ->
  h !! (f_locals fr) = Some d ->
  d <> [] ->
  annotation_item (h, Make a msg None None None None None) "message"
  = Some (PStr message) ->
  annotation_item (h, Make a msg None None None None None) "advice"
  = Some (PStr advice) ->
  (forall fm fa,
      str_format py_repr format_field_syntax message
        (Some (map (fun '(k, v) => (k, PStr (py_repr v))) d)) = OK fm ->
      str_format py_repr format_field_syntax advice
        (Some (map (fun '(k, v) => (k, PStr (py_repr v))) d)) = OK fa ->
      exists s : heap * t,
        _format_annotation py_repr wrap format_field_syntax
          (before ++ fr :: after) (h, Make a msg None None None None None)
        = OK (tt, s)
        /\ annotation_item s "message" = Some (PStr (join NL (wrap fm 74)))
        /\ annotation_item s "advice"
           = Some (PStr (join (NL +:+ TAB) (wrap fa 64)))
        /\ exists shown : dict,
             shown = List.filter (fun '(k, v) => shown_local k) d
             /\ (forall stack' : list frame,
                   _format_locals py_repr stack' s
                   = OK (join (NL +:+ TAB)
                           (map (fun '(k, v) => k +:+ "=" +:+ py_repr v) shown),
                         s))
             /\ forall k v,
                  k ∈ _IGNORE_LOCALS \/ startswith k "_" = true ->
                  ~ In (k, v) shown)
  /\ (forall ps : list piece,
        forallb piece_ok ps = true ->
        Forall (fun k => plain_name k = true /\ is_Some (dict_get d k))
               (field_names ps) ->
        str_format py_repr format_field_syntax (template_text ps)
          (Some (map (fun '(k, v) => (k, PStr (py_repr v))) d))
        = OK (expansion py_repr d ps)).
Proof.
  intros Hbefore Hfr Hd Hne Hmsg Hadv. split.
  - intros fm fa Hfm Hfa.
    set (self := Make a msg None None None None None) in *.
    pose proof (format_annotation_fresh before after fr h d self _ _ _
                  Hbefore Hfr Hd Hne eq_refl Hmsg Hadv Hfm) as Hrun.
    rewrite Hfa in Hrun.
    destruct (written_state h fr d self
                (PStr (join NL (wrap fm 74)))
                (PStr (join (NL +:+ TAB) (wrap fa 64)))
                "message" ltac:(rewrite Hmsg; eauto))
      as (Hm & Ha & Hheap & Hlocals & _).
    eexists. split; [exact Hrun|]. split; [exact Hm|]. split; [exact Ha|].
    eexists. split; [reflexivity|]. split.
    + intros stack'.
      match goal with |- _ ?s = _ => destruct s as [h2 self2] eqn:Hs end.
      cbn [fst snd] in Hheap, Hlocals.
      apply (format_locals_snapshot stack' h2 self2 _ d Hlocals Hheap Hne).
    + intros k v Hexcl [_ Hshown]%filter_In.
      rewrite (shown_local_excluded k Hexcl) in Hshown. discriminate.
  - intros ps Hok Hbound.
    rewrite (str_format_pieces py_repr format_field_syntax _ d Hok).
    by apply expand_bound.
Qed.

Lemma meta_format_not_empty (standardMsg message assert_expr locals advice : string) :
  meta_format standardMsg message assert_expr locals advice <> EmptyString.
Proof.
  unfold meta_format. destruct standardMsg; discriminate.
Qed.

Lemma format_msg_not_empty (stack : list frame) (s s' : heap * t) (m : string) :
  _format_msg py_repr cache ast_parse stack s = OK (m, s') ->
  m <> EmptyString.
Proof.
  unfold _format_msg. intros H.
  do 7 (apply bind_OK in H as (? & ? & _ & H)).
  injection H as <- _. apply meta_format_not_empty.
Qed.

(** What [formattedMsg] returns is a text that is not empty, and it is
    what the object holds afterwards. *)
Lemma formattedMsg_result (stack : list frame) (s s' : heap * t)
    (text : option string) :
  formattedMsg py_repr cache ast_parse stack s = OK (text, s') ->
  exists msg,
    text = Some msg /\ msg <> EmptyString /\ _formatted_msg s'.2 = Some msg.
Proof.
  unfold formattedMsg. intros H.
  apply bind_OK in H as (self & s1 & Hself & H).
  injection Hself as <- <-.
  apply bind_OK in H as ([] & s2 & Hmemo & H).
  injection H as <- <-.
  destruct (_formatted_msg s.2) as [[|c m]|] eqn:Hheld.
  - apply bind_OK in Hmemo as (m & s3 & Hm & Hset). injection Hset as <-.
    exists m. split; [reflexivity|].
    split; [apply (format_msg_not_empty _ _ _ _ Hm)|reflexivity].
  - injection Hmemo as <-. exists (String c m). by rewrite Hheld.
  - apply bind_OK in Hmemo as (m & s3 & Hm & Hset). injection Hset as <-.
    exists m. split; [reflexivity|].
    split; [apply (format_msg_not_empty _ _ _ _ Hm)|reflexivity].
Qed.

(** Once a text is held, [formattedMsg] returns it and touches nothing,
    whatever the stack and the heap are by then. *)
Lemma formattedMsg_memoized (stack : list frame) (h : heap) (self : t)
    (msg : string) :
  _formatted_msg self = Some msg ->
  msg <> EmptyString ->
  formattedMsg py_repr cache ast_parse stack (h, self) = OK (Some msg, (h, self)).
Proof.
  intros Hheld Hne. destruct msg as [|c m]; [contradiction|].
  unfold formattedMsg, mbind, M_bind, get_self, mret, M_ret.
  cbn [fst snd]. rewrite Hheld. cbn [fst snd]. rewrite Hheld. reflexivity.
Qed.

(** C9: once [__init__] has returned, which includes the first access
    of [formattedMsg], every later access returns the same text and
    leaves the object as it is, whatever the stack and the heap have
    become. *)
Theorem formattedMsg_idempotent
    (stack : list frame) (args0 : annotation_object * string) (h : heap)
    (text : option string) (s : heap * t) :
  __init__ py_repr wrap format_field_syntax cache ast_parse stack args0 h
  = OK (text, s) ->
  exists msg,
    text = Some msg
    /\ msg <> EmptyString
    /\ forall (stack' : list frame) (h' : heap),
         formattedMsg py_repr cache ast_parse stack' (h', s.2)
         = OK (Some msg, (h', s.2)).
Proof.
  unfold __init__. intros H.
  apply bind_OK in H as ([] & s1 & _ & H).
  apply formattedMsg_result in H as (msg & -> & Hne & Hheld).
  exists msg. split; [reflexivity|]. split; [exact Hne|].
  intros stack' h'. by apply formattedMsg_memoized.
Qed.

End Failure.

Section FailureSamples.
Import AnnotatedAssertionError.

Lemma excluded_locals_hidden_but_usable_witness :
  let a : gmap string pyval :=
    <["message" := PStr "x was {x} and {_hidden}"]>
      {["advice" := PStr "see {message}"]} in
  exists s : heap * t,
    _format_annotation sample_repr sample_wrap sample_field_syntax
      (sample_stack 13)
      (sample_heap, Make (PDict a) "False is not true" None None None None None)
    = OK (tt, s)
    /\ annotation_item s "message" = Some (PStr "x was 5 and 6")
    /\ annotation_item s "advice" = Some (PStr "see 'x was {x}'")
    /\ _format_locals sample_repr [] s = OK ("x=5", s).
Proof.
  intros a.
  destruct (excluded_locals_hidden_but_usable sample_repr sample_wrap
              sample_field_syntax
              [Frame "assertTrue" 2 "case.py" 700; Frame "wrapper" 2 "marbles.py" 333]
              [Frame "run" 3 "case.py" 50]
              (Frame "test_sample" 1 "test_sample.py" 13)
              sample_heap sample_locals (PDict a) "False is not true"
              "x was {x} and {_hidden}" "see {message}")
    as [Hrun Hexpand].
  - repeat constructor.
  - reflexivity.
  - reflexivity.
  - discriminate.
  - vm_compute. reflexivity.
  - vm_compute. reflexivity.
  - destruct (Hrun "x was 5 and 6" "see 'x was {x}'")
      as (s & Hs & Hm & Ha & shown & -> & Hlocals & _).
    + apply (Hexpand [Text "x was "; Field "x"; Text " and "; Field "_hidden"]);
        [reflexivity|repeat constructor; eexists; reflexivity].
    + apply (Hexpand [Text "see "; Field "message"]);
        [reflexivity|repeat constructor; eexists; reflexivity].
    + exists s. split; [exact Hs|]. split; [exact Hm|]. split; [exact Ha|].
      apply Hlocals.
Defined.

Lemma formattedMsg_idempotent_witness :
  exists (text : option string) (s : heap * t) (msg : string),
    __init__ sample_repr sample_wrap sample_field_syntax sample_cache
      sample_parse (sample_stack 13) (Unshared sample_annotation, "False is not true")
      sample_heap
    = OK (text, s)
    /\ text = Some msg
    /\ forall (stack' : list frame) (h' : heap),
         formattedMsg sample_repr sample_cache sample_parse stack' (h', s.2)
         = OK (Some msg, (h', s.2)).
Proof.
  assert (exists text s,
             __init__ sample_repr sample_wrap sample_field_syntax sample_cache
               sample_parse (sample_stack 13)
               (Unshared sample_annotation, "False is not true") sample_heap
             = OK (text, s)) as (text & s & Hinit)
    by (eexists _, _; vm_compute; reflexivity).
  destruct (formattedMsg_idempotent sample_repr sample_wrap sample_field_syntax
              sample_cache sample_parse (sample_stack 13)
              (Unshared sample_annotation, "False is not true") sample_heap text s Hinit)
    as (msg & Htext & _ & Hagain).
  exists text, s, msg. auto.
Defined.

(** The report of the sample failure. *)
Example sample_report :
  exists s,
    __init__ sample_repr sample_wrap sample_field_syntax sample_cache
      sample_parse (sample_stack 13)
      (Unshared sample_annotation, "False is not true") sample_heap
    = OK (Some (join NL
            ["False is not true"; "x was 5"; EmptyString;
             "Source:";
             "      9 line 9"; " >   10 line 10"; "     11 line 11";
             "     12 line 12"; "     13 line 13"; "     14 line 14";
             "Locals:"; TAB +:+ "x=5";
             "Advice:"; TAB +:+ "check 5"; "    "]), s).
Proof. eexists. vm_compute. reflexivity. Qed.

(** C2 on the code: when no node of the tree is on the reported line
    (the source of the test cannot be read, so the module is empty; or
    line 12 of the sample file, which starts no node), [_get_source]
    leaves [source] unbound, and the error leaves [__init__] in place of
    the report. *)
Theorem init_source_line_without_node :
  (_get_source unreadable_cache unreadable_parse (Some "test_sample.py")
     (Some 13) 1 2
   = Raise (UnboundLocalError "source")
   /\ __init__ sample_repr sample_wrap sample_field_syntax unreadable_cache
        unreadable_parse (sample_stack 13)
        (Unshared sample_annotation, "False is not true") sample_heap
      = Raise (UnboundLocalError "source"))
  /\ (Forall (fun node => lineno node <> Some 12) (walk sample_tree)
      /\ _get_source sample_cache sample_parse (Some "test_sample.py")
           (Some 12) 1 2
         = Raise (UnboundLocalError "source")
      /\ __init__ sample_repr sample_wrap sample_field_syntax sample_cache
           sample_parse (sample_stack 12)
           (Unshared sample_annotation, "False is not true") sample_heap
         = Raise (UnboundLocalError "source")).
Proof.
  split; [split|split; [|split]].
  - vm_compute. reflexivity.
  - vm_compute. reflexivity.
  - vm_compute. repeat constructor; discriminate.
  - vm_compute. reflexivity.
  - vm_compute. reflexivity.
Qed.

(** C7 on the code: with no test frame on the stack, an annotation
    whose templates refer to no name at all fails with the [TypeError]
    of unpacking [None]. *)
Theorem init_without_test_frame_type_error :
  let stack := [Frame "setUp" 1 "test_sample.py" 13; Frame "run" 3 "case.py" 50] in
  let annotation :=
    PDict (<["message" := PStr "no field"]> {["advice" := PStr "none either"]}) in
  Forall (fun f => is_test_frame f = false) stack
  /\ __init__ sample_repr sample_wrap sample_field_syntax sample_cache
       sample_parse stack (Unshared annotation, "False is not true") sample_heap
     = Raise (TypeError "format() argument after ** must be a mapping, not NoneType")
  /\ str_format sample_repr sample_field_syntax "no field" (Some [])
     = OK "no field".
Proof.
  intros stack annotation. split; [|split].
  - repeat constructor.
  - apply (init_without_test_frame _ _ _ _ _ _ _ _ "no field").
    + repeat constructor.
    + vm_compute. reflexivity.
  - reflexivity.
Qed.

End FailureSamples.

(** ** The three ways to pass an annotation *)

Section Interceptor.
Import AnnotatedTestCase.

Lemma no_provided_keys (kwargs : gmap string pyval) :
  kwargs !! "message" = None ->
  kwargs !! "advice" = None ->
  dom kwargs ∩ required_set = ∅.
Proof.
  intros Hm Ha. apply set_eq. intros k.
  rewrite elem_of_intersection, required_set_elem, elem_of_dom. split.
  - intros [[x Hx] [-> | ->]]; congruence.
  - intros Hin. by apply elem_of_empty in Hin.
Qed.

Lemma provided_keys_lookup (kwargs : gmap string pyval) :
  dom kwargs ∩ required_set = ∅ ->
  kwargs !! "message" = None /\ kwargs !! "advice" = None.
Proof.
  intros Hempty. split; apply not_elem_of_dom; intros Hin.
  - assert ("message" ∈ dom kwargs ∩ required_set) as H
      by (apply elem_of_intersection; split; [done|apply required_set_elem; auto]).
    rewrite Hempty in H. by apply elem_of_empty in H.
  - assert ("advice" ∈ dom kwargs ∩ required_set) as H
      by (apply elem_of_intersection; split; [done|apply required_set_elem; auto]).
    rewrite Hempty in H. by apply elem_of_empty in H.
Qed.

Lemma validate_message_advice (m a : pyval) (d : gmap string pyval) :
  _validate_annotation (PDict (<["message" := m]> (<["advice" := a]> d))) = OK tt.
Proof.
  rewrite validate_dict. case_decide as Hm; [reflexivity|].
  exfalso. apply Hm, missing_fields_empty.
  rewrite lookup_insert_eq, lookup_insert_ne, lookup_insert_eq by done.
  split; eauto.
Qed.

Lemma coerce_sequence_two (v m a : pyval) (more : list pyval) :
  sequence_items v = Some (m :: a :: more) ->
  _coerce_annotation_dict v
  = OK (PDict (<["message" := m]> (<["advice" := a]> ∅))).
Proof.
  intros Hv. unfold _coerce_annotation_dict. rewrite Hv. reflexivity.
Qed.

Lemma pop_last_snoc (args : list pyval) (v : pyval) :
  pop_last (args ++ [v]) = OK (v, args).
Proof.
  unfold pop_last. rewrite last_snoc, removelast_last. reflexivity.
Qed.

(** X1: the trailing positional form, the legacy [msg=] form and the
    [message=]/[advice=] form of one annotation reach the wrapped
    assertion as the same call: the same positional arguments, the same
    [msg] mapping, the same keyword arguments. *)
Theorem annotation_forms_agree
    (args : list pyval) (kwargs : gmap string pyval) (v m a : pyval)
    (more : list pyval) :
  kwargs !! "message" = None ->
  kwargs !! "advice" = None ->
  kwargs !! "msg" = None ->
  sequence_items v = Some (m :: a :: more) ->
  wrapper (args ++ [v]) kwargs
  = Forwarded args (PDict (<["message" := m]> (<["advice" := a]> ∅))) kwargs
  /\ wrapper args (<["msg" := v]> kwargs)
     = Forwarded args (PDict (<["message" := m]> (<["advice" := a]> ∅))) kwargs
  /\ wrapper args (<["message" := m]> (<["advice" := a]> kwargs))
     = Forwarded args (PDict (<["message" := m]> (<["advice" := a]> ∅))) kwargs.
Proof.
  intros Hm Ha Hmsg Hv. split; [|split].
  - unfold wrapper, wrapper_annotation.
    rewrite (no_provided_keys _ Hm Ha).
    destruct (decide (∅ ≠ ∅)) as [Hne|_]; [by destruct Hne|].
    rewrite Hmsg, pop_last_snoc. cbn [mbind result_bind].
    rewrite (coerce_sequence_two _ _ _ _ Hv). cbn [mbind result_bind].
    by rewrite validate_message_advice, Hmsg.
  - unfold wrapper, wrapper_annotation.
    rewrite no_provided_keys by (by rewrite lookup_insert_ne).
    destruct (decide (∅ ≠ ∅)) as [Hne|_]; [by destruct Hne|].
    rewrite lookup_insert_eq, (coerce_sequence_two _ _ _ _ Hv).
    cbn [mbind result_bind]. rewrite validate_message_advice.
    by rewrite lookup_delete_eq, delete_insert_eq, delete_id.
  - set (K := <["message" := m]> (<["advice" := a]> kwargs)).
    assert (forall k, k ∈ dom K ∩ required_set <-> k ∈ required_set) as Hprov.
    { intros k. rewrite elem_of_intersection, elem_of_dom, required_set_elem.
      split; [tauto|]. intros [-> | ->]; (split; [|auto]); unfold K.
      - rewrite lookup_insert_eq. eauto.
      - rewrite lookup_insert_ne, lookup_insert_eq by done. eauto. }
    assert (filter (fun kv : string * pyval => kv.1 ∈ dom K ∩ required_set) K
            = <["message" := m]> (<["advice" := a]> ∅)) as Hbundle.
    { apply map_eq. intros k. apply option_eq. intros x.
      rewrite map_lookup_filter_Some. cbn [fst]. rewrite Hprov, required_set_elem.
      unfold K. split.
      - intros [Hx [-> | ->]].
        + by rewrite lookup_insert_eq in *.
        + by rewrite lookup_insert_ne, lookup_insert_eq in * by done.
      - intros Hx.
        destruct (decide (k = "message")) as [->|Hkm].
        { rewrite lookup_insert_eq in *. auto. }
        destruct (decide (k = "advice")) as [->|Hka].
        { rewrite lookup_insert_ne, lookup_insert_eq in * by done. auto. }
        rewrite !lookup_insert_ne, lookup_empty in Hx by done. discriminate. }
    assert (filter (fun kv : string * pyval => kv.1 ∉ dom K ∩ required_set) K
            = kwargs) as Hrest.
    { apply map_eq. intros k. apply option_eq. intros x.
      rewrite map_lookup_filter_Some. cbn [fst]. rewrite Hprov, required_set_elem.
      unfold K. split.
      - intros [Hx Hk]. rewrite !lookup_insert_ne in Hx; [done| |];
          intros <-; apply Hk; auto.
      - intros Hx. split.
        + rewrite !lookup_insert_ne; [done| |]; intros <-; congruence.
        + intros [-> | ->]; congruence. }
    unfold wrapper, wrapper_annotation. fold K.
    destruct (decide (dom K ∩ required_set ≠ ∅)) as [_|Hempty].
    + rewrite Hbundle, Hrest, coerce_dict. cbn [mbind result_bind].
      by rewrite validate_message_advice, Hmsg.
    + exfalso. apply Hempty. intros Heq.
      assert ("message" ∈ dom K ∩ required_set) as Hin
        by (apply Hprov, required_set_elem; auto).
      rewrite Heq in Hin. by apply elem_of_empty in Hin.
Qed.

Lemma annotation_forms_agree_witness :
  wrapper [PBool false; PTuple [PStr "m"; PStr "a"]] ∅
  = Forwarded [PBool false]
      (PDict (<["message" := PStr "m"]> (<["advice" := PStr "a"]> ∅))) ∅
  /\ wrapper [PBool false] (<["msg" := PTuple [PStr "m"; PStr "a"]]> ∅)
     = Forwarded [PBool false]
         (PDict (<["message" := PStr "m"]> (<["advice" := PStr "a"]> ∅))) ∅
  /\ wrapper [PBool false]
       (<["message" := PStr "m"]> (<["advice" := PStr "a"]> ∅))
     = Forwarded [PBool false]
         (PDict (<["message" := PStr "m"]> (<["advice" := PStr "a"]> ∅))) ∅.
Proof.
  apply (annotation_forms_agree [PBool false] ∅ (PTuple [PStr "m"; PStr "a"])
           (PStr "m") (PStr "a") []); reflexivity.
Defined.

(** X2: whatever the call, what reaches the wrapped assertion as [msg]
    is a mapping that holds both required keys, and no [message=] or
    [advice=] keyword reaches it. *)
Theorem forwarded_annotation_is_complete
    (args args' : list pyval) (kwargs kwargs' : gmap string pyval)
    (msg : pyval) :
  wrapper args kwargs = Forwarded args' msg kwargs' ->
  exists d : gmap string pyval,
    msg = PDict d
    /\ is_Some (d !! "message") /\ is_Some (d !! "advice")
    /\ kwargs' !! "message" = None /\ kwargs' !! "advice" = None.
Proof.
  unfold wrapper.
  destruct (wrapper_annotation args kwargs) as [[[ann a'] k']|e] eqn:Hw;
    [|discriminate].
  destruct (_validate_annotation ann) as [[]|e] eqn:Hv; [|discriminate].
  destruct (k' !! "msg"); [discriminate|].
  intros H. injection H as -> -> ->.
  destruct msg as [| | | | | |d|]; try discriminate Hv.
  exists d. split; [reflexivity|].
  rewrite validate_dict in Hv. case_decide as Hmiss; [|discriminate].
  apply missing_fields_empty in Hmiss as [Hm Ha].
  split; [exact Hm|]. split; [exact Ha|].
  unfold wrapper_annotation in Hw.
  destruct (decide (dom kwargs ∩ required_set ≠ ∅)) as [Hne|Hempty].
  - cbn [mbind result_bind] in Hw. rewrite coerce_dict in Hw.
    cbn [mbind result_bind] in Hw. injection Hw as _ _ <-.
    split; apply map_lookup_filter_None; right; intros x Hx Hn; apply Hn;
      cbn [fst]; apply elem_of_intersection;
      (split; [apply elem_of_dom; eauto|apply required_set_elem; auto]).
  - apply dec_stable in Hempty.
    destruct (provided_keys_lookup _ Hempty) as [Hkm Hka].
    destruct (kwargs !! "msg") as [v|].
    + destruct (_coerce_annotation_dict v); [|discriminate].
      cbn [mbind result_bind] in Hw. injection Hw as _ _ <-.
      by rewrite !lookup_delete_ne.
    + destruct (pop_last args) as [[v a0]|]; [|discriminate].
      cbn [mbind result_bind] in Hw.
      destruct (_coerce_annotation_dict v); [|discriminate].
      cbn [mbind result_bind] in Hw. injection Hw as _ _ <-. done.
Qed.

Lemma forwarded_annotation_is_complete_witness :
  exists d : gmap string pyval,
    PDict (<["message" := PStr "m"]> (<["advice" := PStr "a"]> ∅)) = PDict d
    /\ is_Some (d !! "message") /\ is_Some (d !! "advice")
    /\ (∅ : gmap string pyval) !! "message" = None
    /\ (∅ : gmap string pyval) !! "advice" = None.
Proof.
  apply (forwarded_annotation_is_complete
           [PBool false; PTuple [PStr "m"; PStr "a"]] [PBool false] ∅ ∅).
  reflexivity.
Defined.

(** X3: with no [message=], [advice=] or [msg=] keyword the last
    positional argument is taken for the annotation, whatever it is.
    With no positional argument the call raises [IndexError]; a last
    argument that is neither a sequence nor a mapping raises the
    [AnnotationError] that names its type; a sequence of fewer than two
    items raises the [AnnotationError] of the missing fields, and so
    does a mapping that lacks a required key; a sequence of two items or
    more, also one that was meant as an operand of the assertion, and a
    mapping with both keys are taken off the positional arguments and
    passed on as [msg]. *)
Theorem last_positional_is_annotation
    (args : list pyval) (kwargs : gmap string pyval) (v : pyval) :
  kwargs !! "message" = None ->
  kwargs !! "advice" = None ->
  kwargs !! "msg" = None ->
  wrapper [] kwargs = Raised (IndexError "tuple index out of range")
  /\ (sequence_items v = None -> is_mapping v = false ->
      wrapper (args ++ [v]) kwargs
      = Raised (AnnotationError (TypeNotSupported
          ("Annotation type not supported: <class '" +:+ type_name v +:+ "'>"))))
  /\ (forall items, sequence_items v = Some items -> (length items < 2)%nat ->
      exists missing,
        wrapper (args ++ [v]) kwargs
        = Raised (AnnotationError (MissingRequiredFields missing))
        /\ "advice" ∈ missing)
  /\ (forall m a more, sequence_items v = Some (m :: a :: more) ->
      wrapper (args ++ [v]) kwargs
      = Forwarded args (PDict (<["message" := m]> (<["advice" := a]> ∅))) kwargs)
  /\ (forall d, v = PDict d ->
      wrapper (args ++ [v]) kwargs
      = if decide (required_set ∖ dom d = ∅) then Forwarded args (PDict d) kwargs
        else Raised (AnnotationError (MissingRequiredFields (required_set ∖ dom d)))).
Proof.
  intros Hm Ha Hmsg.
  assert (wrapper_annotation (args ++ [v]) kwargs
          = (annotation ← _coerce_annotation_dict v; OK (annotation, args, kwargs)))
    as Hlast.
  { unfold wrapper_annotation. rewrite (no_provided_keys _ Hm Ha).
    destruct (decide (∅ ≠ ∅)) as [Hne|_]; [by destruct Hne|].
    by rewrite Hmsg, pop_last_snoc. }
  split; [|split; [|split; [|split]]].
  - unfold wrapper, wrapper_annotation. rewrite (no_provided_keys _ Hm Ha).
    destruct (decide (∅ ≠ ∅)) as [Hne|_]; [by destruct Hne|].
    by rewrite Hmsg.
  - intros Hseq Hmap. unfold wrapper. rewrite Hlast.
    unfold _coerce_annotation_dict. by rewrite Hseq, Hmap.
  - intros items Hseq Hlen. unfold wrapper. rewrite Hlast.
    unfold _coerce_annotation_dict. rewrite Hseq. cbn [mbind result_bind].
    rewrite validate_dict. case_decide as Hmiss.
    + exfalso. apply missing_fields_empty in Hmiss as [[x Hx] [y Hy]].
      destruct items as [|m [|a more]]; [| |simpl in Hlen; lia];
        cbn [zip zip_with AnnotatedAssertionError.REQUIRED_KEYS list_to_map
             foldr uncurry fst snd] in Hx, Hy.
      * by rewrite lookup_empty in Hy.
      * by rewrite lookup_insert_ne, lookup_empty in Hy.
    + eexists. split; [reflexivity|].
      apply elem_of_difference. split; [apply required_set_elem; auto|].
      rewrite not_elem_of_dom.
      destruct items as [|m [|a more]]; [| |simpl in Hlen; lia];
        cbn [zip zip_with AnnotatedAssertionError.REQUIRED_KEYS list_to_map
             foldr uncurry fst snd].
      * apply lookup_empty.
      * by rewrite lookup_insert_ne, lookup_empty.
  - intros m a more Hseq. unfold wrapper. rewrite Hlast.
    rewrite (coerce_sequence_two _ _ _ _ Hseq). cbn [mbind result_bind].
    by rewrite validate_message_advice, Hmsg.
  - intros d ->. unfold wrapper. rewrite Hlast, coerce_dict.
    cbn [mbind result_bind]. rewrite validate_dict.
    case_decide; [by rewrite Hmsg|reflexivity].
Qed.

Lemma last_positional_is_annotation_witness :
  wrapper [] ∅ = Raised (IndexError "tuple index out of range")
  /\ wrapper [PInt 1; PInt 2] ∅
     = Raised (AnnotationError (TypeNotSupported
         "Annotation type not supported: <class 'int'>"))
  /\ wrapper [PInt 1; PStr "ab"] ∅
     = Forwarded [PInt 1]
         (PDict (<["message" := PStr "a"]> (<["advice" := PStr "b"]> ∅))) ∅.
Proof.
  destruct (last_positional_is_annotation [PInt 1] ∅ (PInt 2))
    as (Hnone & Hother & _); [reflexivity..|].
  destruct (last_positional_is_annotation [PInt 1] ∅ (PStr "ab"))
    as (_ & _ & _ & Hseq & _); [reflexivity..|].
  split; [exact Hnone|]. split.
  - apply Hother; reflexivity.
  - apply (Hseq (PStr "a") (PStr "b") []). reflexivity.
Defined.

(** X4: a sequence is zipped against [message], [advice] in this
    order and anything after its second item is dropped; the outcome
    passes validation exactly when the sequence has two items or more;
    and coercing the outcome again changes nothing. *)
Theorem coerce_sequence_then_validate (v : pyval) (items : list pyval) :
  sequence_items v = Some items ->
  exists d : gmap string pyval,
    _coerce_annotation_dict v = OK (PDict d)
    /\ d !! "message" = items !! 0%nat
    /\ d !! "advice" = items !! 1%nat
    /\ (forall k, k <> "message" -> k <> "advice" -> d !! k = None)
    /\ (_validate_annotation (PDict d) = OK tt <-> (2 <= length items)%nat)
    /\ _coerce_annotation_dict (PDict d) = OK (PDict d).
Proof.
  intros Hv. unfold _coerce_annotation_dict at 1. rewrite Hv.
  eexists. split; [reflexivity|].
  destruct items as [|m [|a more]]; cbn [zip zip_with AnnotatedAssertionError.REQUIRED_KEYS list_to_map foldr uncurry fst snd].
  - split; [done|]. split; [done|]. split; [intros; apply lookup_empty|].
    split; [|reflexivity]. rewrite validate_dict. split; [|simpl; lia].
    case_decide as Hmiss; [|discriminate].
    apply missing_fields_empty in Hmiss as [[x Hx] _].
    rewrite lookup_empty in Hx. discriminate.
  - split; [apply lookup_insert_eq|]. split; [done|].
    split; [intros k Hkm Hka; by rewrite lookup_insert_ne, lookup_empty|].
    split; [|reflexivity]. rewrite validate_dict. split; [|simpl; lia].
    case_decide as Hmiss; [|discriminate].
    apply missing_fields_empty in Hmiss as [_ [x Hx]].
    rewrite lookup_insert_ne, lookup_empty in Hx by done. discriminate.
  - split; [apply lookup_insert_eq|].
    split; [by rewrite lookup_insert_ne, lookup_insert_eq|].
    split; [intros k Hkm Hka; by rewrite !lookup_insert_ne, lookup_empty|].
    split; [|reflexivity]. split; [simpl; lia|].
    intros _. apply validate_message_advice.
Qed.

Lemma coerce_sequence_then_validate_witness :
  exists d : gmap string pyval,
    _coerce_annotation_dict (PList [PStr "m"]) = OK (PDict d)
    /\ d !! "message" = Some (PStr "m")
    /\ d !! "advice" = None.
Proof.
  destruct (coerce_sequence_then_validate (PList [PStr "m"]) [PStr "m"] eq_refl)
    as (d & Hc & Hm & Ha & _).
  exists d. auto.
Defined.

End Interceptor.

(** ** The excerpt of [_get_source] in general *)

Section Excerpt.
Import AnnotatedAssertionError.

Variable cache : gmap string (list string).
Variable ast_parse : string -> result ast.

Lemma find_line_no_number nodes statement leading following :
  find_line nodes statement None leading following = OK None.
Proof.
  revert statement. induction nodes as [|node nodes IH]; intros statement;
    [reflexivity|].
  cbn [find_line]. destruct (lineno node); apply IH.
Qed.

Lemma forallb_take_drop (bodies : list string) (p k : nat) :
  forallb newline_free bodies = true ->
  forallb newline_free (take k (drop p bodies)) = true.
Proof.
  rewrite !forallb_forall. intros Hfree b Hin. apply Hfree.
  apply list_elem_of_In in Hin. apply list_elem_of_In.
  by eapply subseteq_drop, subseteq_take.
Qed.

(** The text of the lines [p + 1] to [p + k] of a file, as
    [linecache.getline] gives them: lines past the end add nothing. *)
Lemma getline_text (name : string) (bodies : list string) (p k : nat) :
  cache !! name = Some (map (fun b => b +:+ NL) bodies) ->
  join EmptyString
    (map (fun j => getline cache (Some name) (Z.of_nat (S (p + j)))) (seq 0 k))
  = join EmptyString (map (fun b => b +:+ NL) (take k (drop p bodies))).
Proof.
  intros Hname. revert p. induction k as [|k IH]; intros p; [reflexivity|].
  rewrite <- cons_seq, <- seq_shift. cbn [map]. rewrite map_map.
  rewrite join_empty_cons.
  rewrite (map_ext _ (fun j => getline cache (Some name) (Z.of_nat (S (S p + j))))).
  2:{ intros j. do 2 f_equal. lia. }
  rewrite (IH (S p)). rewrite Nat.add_0_r.
  destruct (bodies !! p) as [b|] eqn:Hb.
  - rewrite (drop_S _ _ _ Hb). cbn [take map]. rewrite join_empty_cons. f_equal.
    apply (getline_cached cache name (map (fun b => b +:+ NL) bodies));
      [exact Hname|lia|].
    replace (Z.to_nat (Z.of_nat (S p) - 1)) with p by lia.
    by rewrite list_lookup_fmap, Hb.
  - apply lookup_ge_None in Hb.
    rewrite !drop_ge by lia. cbn [take map].
    unfold getline. rewrite (getlines_cached cache _ _ Hname), length_map.
    case_decide; [lia|]. destruct k; reflexivity.
Qed.

(** X5: when the walk stops at a node of line [n] while tracking a
    statement that starts on line [first], and [first - leading] is a
    line of the file, the excerpt is made of the lines from
    [first - leading] up to [n + following - 1] or the end of the file,
    dedented together, numbered from [first - leading] on, with [>] on
    line [first] and a space on the others. *)
Theorem get_source_excerpt
    (name : string) (bodies : list string) (tree : ast)
    (before after : list ast) (hit stmt : ast) (first n leading following : Z) :
  cache !! name = Some (map (fun b => b +:+ NL) bodies) ->
  forallb newline_free bodies = true ->
  ast_parse (join EmptyString (map (fun b => b +:+ NL) bodies)) = OK tree ->
  walk tree = (before ++ hit :: after)%list ->
  Forall (fun node => lineno node <> Some n) before ->
  lineno hit = Some n ->
  tracked_statement (before ++ [hit]) = Some stmt ->
  lineno stmt = Some first ->
  1 <= first - leading ->
  _get_source cache ast_parse (Some name) (Some n) leading following
  = OK (join NL
          (map (fun '(i, line) =>
                  format_line (if decide (i = first) then ">" else " ") i line)
               (zip (py_range (first - leading) (n + following))
                    (dedent_lines
                       (take (Z.to_nat (n + following - (first - leading)))
                             (drop (Z.to_nat (first - leading - 1)) bodies)))))).
Proof.
  intros Hname Hfree Hparse Hwalk Hmiss Hhit Htrack Hfirst Hlo.
  unfold _get_source. cbv zeta.
  rewrite (getlines_cached cache _ _ Hname), Hparse. cbn [mbind result_bind].
  rewrite Hwalk, (find_line_hit _ _ _ _ _ _ _ _ Hmiss Hhit Htrack Hfirst).
  cbn [mbind result_bind]. rewrite Hfirst.
  assert (map (getline cache (Some name)) (py_range (first - leading) (n + following))
          = map (fun j => getline cache (Some name)
                            (Z.of_nat (S (Z.to_nat (first - leading - 1) + j))))
                (seq 0 (Z.to_nat (n + following - (first - leading))))) as ->.
  { unfold py_range. rewrite map_map. apply map_ext. intros j. f_equal. lia. }
  rewrite (getline_text name bodies _ _ Hname).
  rewrite (dedented_complete_lines _ (forallb_take_drop _ _ _ Hfree)).
  do 2 f_equal. apply map_ext. intros [i line].
  destruct (decide (Some i = Some first)) as [Heq|Hne];
    destruct (decide (i = first)) as [Heq'|Hne']; try reflexivity.
  - congruence.
  - subst. contradiction.
Qed.

(** X6: an empty range gives an empty excerpt.  When the statement
    being tracked starts [leading + following] lines or more after the
    reported line, [_get_source] returns the empty string, whatever the
    file holds. *)
Theorem get_source_empty_range
    (filename : option string) (tree : ast)
    (before after : list ast) (hit stmt : ast) (first n leading following : Z) :
  ast_parse (join EmptyString (getlines cache filename)) = OK tree ->
  walk tree = (before ++ hit :: after)%list ->
  Forall (fun node => lineno node <> Some n) before ->
  lineno hit = Some n ->
  tracked_statement (before ++ [hit]) = Some stmt ->
  lineno stmt = Some first ->
  n + following <= first - leading ->
  _get_source cache ast_parse filename (Some n) leading following
  = OK EmptyString.
Proof.
  intros Hparse Hwalk Hmiss Hhit Htrack Hfirst Hrange.
  unfold _get_source. cbv zeta. rewrite Hparse. cbn [mbind result_bind].
  rewrite Hwalk, (find_line_hit _ _ _ _ _ _ _ _ Hmiss Hhit Htrack Hfirst).
  cbn [mbind result_bind]. unfold py_range.
  replace (Z.to_nat (n + following - (first - leading))) with 0%nat by lia.
  reflexivity.
Qed.

(** X7: [_get_source] raises [UnboundLocalError] for [source] whenever
    its loop ends without a match: for a line number that no node of the
    tree has, and for [None] in place of a line number. *)
Theorem get_source_unbound_source
    (filename : option string) (linenumber : option Z) (tree : ast)
    (leading following : Z) :
  ast_parse (join EmptyString (getlines cache filename)) = OK tree ->
  (forall n, linenumber = Some n ->
             Forall (fun node => lineno node <> Some n) (walk tree)) ->
  _get_source cache ast_parse filename linenumber leading following
  = Raise (UnboundLocalError "source").
Proof.
  intros Hparse Hmiss. unfold _get_source. cbv zeta. rewrite Hparse.
  cbn [mbind result_bind]. destruct linenumber as [n|].
  - rewrite (find_line_miss _ _ _ _ _ (Hmiss n eq_refl)). reflexivity.
  - rewrite find_line_no_number. reflexivity.
Qed.

End Excerpt.

(** ** What the failure object keeps *)

Section Frame.
Import AnnotatedAssertionError.

Variable py_repr : pyval -> string.
Variable wrap : string -> Z -> list string.
Variable format_field_syntax : string -> string -> dict -> result string.
Variable cache : gmap string (list string).
Variable ast_parse : string -> result ast.















(** [assert_expr] of an object that holds a source location and no
    excerpt yet. *)
Lemma assert_expr_located (stack : list frame) (h : heap) (self : t)
    (file : string) (line : Z) :
  _filename self = Some file ->
  file <> EmptyString ->
  _linenumber self = Some line ->
  line <> 0 ->
  _assert_expr self = None ->
  assert_expr py_repr cache ast_parse stack (h, self)
  = match _get_source cache ast_parse (Some file) (Some line) 1 2 with
    | OK src => OK (Some src, (h, set_assert_expr src self))
    | Raise e => Raise e
    end.
Proof.
  intros Hfile Hfne Hline Hlne Hexpr.
  unfold assert_expr, mbind at 1, M_bind at 1, get_self at 1.
  cbn [fst snd]. rewrite Hexpr.
  unfold mbind at 1, M_bind at 1. unfold mbind at 1, M_bind at 1.
  unfold filename, mbind at 1, M_bind at 1, get_self at 1.
  cbn [fst snd]. rewrite Hfile.
  destruct file as [|c file]; [contradiction|].
  unfold mbind at 1, M_bind at 1, mret at 1, M_ret at 1.
  unfold mbind at 1, M_bind at 1, get_self at 1, mret at 1, M_ret at 1.
  cbn [fst snd]. rewrite Hfile.
  unfold mbind at 1, M_bind at 1.
  unfold linenumber, mbind at 1, M_bind at 1, get_self at 1.
  cbn [fst snd]. rewrite Hline.
  unfold mbind, M_bind, mret, M_ret, get_self, lift, update_self.
  destruct line as [|p|p]; [contradiction| |];
    cbn [fst snd]; rewrite Hline;
    by destruct (_get_source cache ast_parse _ _ 1 2).
Qed.

(** [_format_msg] of an object that holds a snapshot and a source
    location, and no excerpt yet. *)
Lemma format_msg_located (stack : list frame) (h : heap) (self : t)
    (copy : loc) (d : dict) (file : string) (line : Z) (message advice : pyval) :
  annotation_item (h, self) "message" = Some message ->
  annotation_item (h, self) "advice" = Some advice ->
  _locals self = Some copy ->
  h !! copy = Some (map (fun '(k, v) => (k, PStr (py_repr v))) d) ->
  d <> [] ->
  _filename self = Some file ->
  file <> EmptyString ->
  _linenumber self = Some line ->
  line <> 0 ->
  _assert_expr self = None ->
  _format_msg py_repr cache ast_parse stack (h, self)
  = match _get_source cache ast_parse (Some file) (Some line) 1 2 with
    | OK src =>
        OK (meta_format (_msg self) (py_str py_repr message) src
              (locals_listing py_repr d) (py_str py_repr advice),
            (h, set_assert_expr src self))
    | Raise e => Raise e
    end.
Proof.
  intros Hmsg Hadv Hlocals Hcopy Hne Hfile Hfne Hline Hlne Hexpr.
  unfold _format_msg.
  rewrite (bind_run (standardMsg) _ (h, self) (h, self) (_msg self) eq_refl).
  rewrite (bind_run annotation _ (h, self) (h, self) (_annotation self) eq_refl).
  rewrite (bind_run _ _ _ _ _ (annotation_getitem_item (h, self) _ _ Hmsg)).
  pose proof (assert_expr_located stack h self file line
                Hfile Hfne Hline Hlne Hexpr) as Hrun.
  destruct (_get_source cache ast_parse (Some file) (Some line) 1 2) as [src|e];
    [|by apply bind_raise].
  rewrite (bind_run _ _ _ _ _ Hrun).
  rewrite (bind_run annotation _ (h, set_assert_expr src self)
             (h, set_assert_expr src self) (_annotation self) eq_refl).
  rewrite (bind_run _ _ _ _ _
             (annotation_getitem_item (h, set_assert_expr src self) _ _ Hadv)).
  rewrite (bind_run _ _ _ _ _
             (format_locals_snapshot py_repr stack h (set_assert_expr src self)
                copy d Hlocals Hcopy Hne)).
  reflexivity.
Qed.

(** [__init__] with a test frame on the stack whose file name and line
    number are set, on templates that format: the state it leaves and
    the report it renders, or the error of the source excerpt. *)
Lemma init_on_test_frame
    (before after : list frame) (fr : frame) (h : heap) (d : dict)
    (a : annotation_object) (msg message advice fm fa : string) :
  Forall (fun f => is_test_frame f = false) before ->
  is_test_frame fr = true ->
  h !! (f_locals fr) = Some d ->
  d <> [] ->
  f_filename fr <> EmptyString ->
  f_lineno fr <> 0 ->
  annotation_item (h, Make a msg None None None None None) "message"
  = Some (PStr message) ->
  annotation_item (h, Make a msg None None None None None) "advice"
  = Some (PStr advice) ->
  str_format py_repr format_field_syntax message
    (Some (map (fun '(k, v) => (k, PStr (py_repr v))) d)) = OK fm ->
  str_format py_repr format_field_syntax advice
    (Some (map (fun '(k, v) => (k, PStr (py_repr v))) d)) = OK fa ->
  let written :=
    with_item "advice" (PStr (join (NL +:+ TAB) (wrap fa 64)))
      (with_item "message" (PStr (join NL (wrap fm 74)))
         (captured py_repr h fr d (Make a msg None None None None None))) in
  __init__ py_repr wrap format_field_syntax cache ast_parse
    (before ++ fr :: after) (a, msg) h
  = match _get_source cache ast_parse (Some (f_filename fr))
            (Some (f_lineno fr)) 1 2 with
    | OK src =>
        let text :=
          meta_format msg (join NL (wrap fm 74)) src (locals_listing py_repr d)
            (join (NL +:+ TAB) (wrap fa 64)) in
        OK (Some text,
            (written.1, set_formatted_msg text (set_assert_expr src written.2)))
    | Raise e => Raise e
    end.
Proof.
  intros Hbefore Hfr Hd Hne Hfile Hline Hmsg Hadv Hfm Hfa written.
  set (self := Make a msg None None None None None) in *.
  pose proof (format_annotation_fresh py_repr wrap format_field_syntax
                before after fr h d self _ _ _
                Hbefore Hfr Hd Hne eq_refl Hmsg Hadv Hfm) as Hrun.
  rewrite Hfa in Hrun. fold written in Hrun.
  destruct (written_state py_repr h fr d self
              (PStr (join NL (wrap fm 74)))
              (PStr (join (NL +:+ TAB) (wrap fa 64)))
              "message" ltac:(rewrite Hmsg; eauto))
    as (Hm & Ha & Hheap & Hlocals & Hf & Hn & Hstd & He & Ht).
  fold written in Hm, Ha, Hheap, Hlocals, Hf, Hn, Hstd, He, Ht.
  unfold __init__. cbn [fst snd]. fold self.
  rewrite (bind_run _ _ _ _ _ Hrun).
  destruct written as [h2 self2]. cbn [fst snd] in *.
  pose proof (format_msg_located (before ++ fr :: after) h2 self2 _ d _ _ _ _
                Hm Ha Hlocals Hheap Hne Hf Hfile Hn Hline He) as Hformat.
  unfold formattedMsg.
  rewrite (bind_run get_self _ (h2, self2) (h2, self2) self2 eq_refl).
  rewrite Ht. cbn [_formatted_msg self].
  destruct (_get_source cache ast_parse _ _ 1 2) as [src|e].
  - rewrite (bind_run _ _ (h2, self2)
               (h2, set_formatted_msg
                      (meta_format msg (join NL (wrap fm 74)) src
                         (locals_listing py_repr d)
                         (join (NL +:+ TAB) (wrap fa 64)))
                      (set_assert_expr src self2)) tt).
    + reflexivity.
    + rewrite (bind_run _ _ _ _ _ Hformat). rewrite Hstd. reflexivity.
  - apply bind_raise. by apply bind_raise.
Qed.


(** X15: the report [__init__] renders with a test frame on the stack.
    With [fm] and [fa] what the message and advice templates format to
    against the snapshot of that frame, and [src] the excerpt
    [_get_source] makes of the file and line of that frame, the report
    is the meta format filled with the standard message as given, [fm]
    wrapped at 74 columns, [src], the locals of the frame that pass the
    filter, each as [name=repr], and [fa] wrapped at 64 columns with a
    tab after each newline; the annotation is left holding the two
    wrapped texts and the object the excerpt.  When [_get_source] raises,
    so does [__init__]. *)
Theorem init_report_layout
    (before after : list frame) (fr : frame) (h : heap) (d : dict)
    (a : annotation_object) (msg message advice fm fa : string) :
  Forall (fun f => is_test_frame f = false) before ->
  is_test_frame fr = true ->
  h !! (f_locals fr) = Some d ->
  d <> [] ->
  f_filename fr <> EmptyString ->
  f_lineno fr <> 0 ->
  annotation_item (h, Make a msg None None None None None) "message"
  = Some (PStr message) ->
  annotation_item (h, Make a msg None None None None None) "advice"
  = Some (PStr advice) ->
  str_format py_repr format_field_syntax message
    (Some (map (fun '(k, v) => (k, PStr (py_repr v))) d)) = OK fm ->
  str_format py_repr format_field_syntax advice
    (Some (map (fun '(k, v) => (k, PStr (py_repr v))) d)) = OK fa ->
  (forall src,
      _get_source cache ast_parse (Some (f_filename fr)) (Some (f_lineno fr))
        1 2 = OK src ->
      exists s : heap * t,
        __init__ py_repr wrap format_field_syntax cache ast_parse
          (before ++ fr :: after) (a, msg) h
        = OK (Some (meta_format msg (join NL (wrap fm 74)) src
                      (join (NL +:+ TAB)
                         (map (fun '(k, v) => k +:+ "=" +:+ py_repr v)
                              (List.filter (fun '(k, v) => shown_local k) d)))
                      (join (NL +:+ TAB) (wrap fa 64))),
              s)
        /\ annotation_item s "message" = Some (PStr (join NL (wrap fm 74)))
        /\ annotation_item s "advice"
           = Some (PStr (join (NL +:+ TAB) (wrap fa 64)))
        /\ _assert_expr s.2 = Some src
        /\ _msg s.2 = msg)
  /\ (forall e,
        _get_source cache ast_parse (Some (f_filename fr)) (Some (f_lineno fr))
          1 2 = Raise e ->
        __init__ py_repr wrap format_field_syntax cache ast_parse
          (before ++ fr :: after) (a, msg) h
        = Raise e).
Proof.
  intros Hbefore Hfr Hd Hne Hfile Hline Hmsg Hadv Hfm Hfa.
  pose proof (init_on_test_frame before after fr h d a msg message advice fm fa
                Hbefore Hfr Hd Hne Hfile Hline Hmsg Hadv Hfm Hfa) as Hinit.
  cbv zeta in Hinit.
  destruct (written_state py_repr h fr d (Make a msg None None None None None)
              (PStr (join NL (wrap fm 74)))
              (PStr (join (NL +:+ TAB) (wrap fa 64)))
              "message" ltac:(rewrite Hmsg; eauto))
    as (Hm & Ha & _ & _ & _ & _ & Hstd & _).
  split.
  - intros src Hsrc. rewrite Hsrc in Hinit.
    eexists. split; [exact Hinit|].
    split; [exact Hm|]. split; [exact Ha|]. split; [reflexivity|exact Hstd].
  - intros e He. by rewrite He in Hinit.
Qed.

End Frame.

(** ** Capture, templates and the source location *)

Section Capture.
Import AnnotatedAssertionError.

Variable py_repr : pyval -> string.
Variable wrap : string -> Z -> list string.
Variable format_field_syntax : string -> string -> dict -> result string.
Variable cache : gmap string (list string).
Variable ast_parse : string -> result ast.


(** X9: with a test frame on the stack, a template in which the fields
    before [{k}] expand and [k] is a plain name that the frame does not
    bind makes [__init__] raise the [KeyError] of [k], whatever follows
    the field: in the message template, and in the advice template when
    the message template formats.  No report is built. *)
Theorem init_unbound_template_name
    (before after : list frame) (fr : frame) (h : heap) (d : dict)
    (a : annotation_object) (msg k rest text : string) (ps : list piece) :
  Forall (fun f => is_test_frame f = false) before ->
  is_test_frame fr = true ->
  h !! (f_locals fr) = Some d ->
  d <> [] ->
  forallb piece_ok ps = true ->
  expand py_repr d ps = OK text ->
  plain_name k = true ->
  dict_get d k = None ->
  (annotation_item (h, Make a msg None None None None None) "message"
   = Some (PStr (template_text ps +:+ ("{" +:+ k +:+ "}") +:+ rest)) ->
   __init__ py_repr wrap format_field_syntax cache ast_parse
     (before ++ fr :: after) (a, msg) h
   = Raise (KeyError k))
  /\ (forall message fm,
        annotation_item (h, Make a msg None None None None None) "message"
        = Some (PStr message) ->
        str_format py_repr format_field_syntax message
          (Some (map (fun '(k, v) => (k, PStr (py_repr v))) d)) = OK fm ->
        annotation_item (h, Make a msg None None None None None) "advice"
        = Some (PStr (template_text ps +:+ ("{" +:+ k +:+ "}") +:+ rest)) ->
        __init__ py_repr wrap format_field_syntax cache ast_parse
          (before ++ fr :: after) (a, msg) h
        = Raise (KeyError k)).
Proof.
  intros Hbefore Hfr Hd Hne Hok Hps Hplain Hget.
  pose proof (str_format_unbound_name py_repr format_field_syntax ps k rest d
                text Hok Hps Hplain Hget) as Hfmt.
  split.
  - intros Hmsg. unfold __init__. cbn [fst snd]. apply bind_raise.
    apply (format_annotation_message_error py_repr wrap format_field_syntax
             before after fr h d
             (Make a msg None None None None None) _ _ Hbefore Hfr Hd Hne eq_refl Hmsg Hfmt).
  - intros message fm Hmsg Hfm Hadv. unfold __init__. cbn [fst snd].
    apply bind_raise.
    rewrite (format_annotation_fresh py_repr wrap format_field_syntax
               before after fr h d
             (Make a msg None None None None None) _ _ _ Hbefore Hfr Hd Hne eq_refl
               Hmsg Hadv Hfm).
    by rewrite Hfmt.
Qed.

(** X10: an annotation that is not fit for formatting stops
    [__init__] before the stack is looked at: a value that is not a
    mapping raises [TypeError], a mapping without [message] raises
    [KeyError], and a [message] that is [None], a number, a tuple, a list
    or a mapping, which have no [format], raises [AttributeError]. *)
Theorem init_malformed_annotation
    (stack : list frame) (h : heap) (msg : string) :
  (forall annotation,
      AnnotatedTestCase.is_mapping annotation = false ->
      (forall cls, annotation <> PObject cls) ->
      exists what,
        __init__ py_repr wrap format_field_syntax cache ast_parse stack
          (Unshared annotation, msg) h = Raise (TypeError what))
  /\ (forall a : gmap string pyval,
        a !! "message" = None ->
        __init__ py_repr wrap format_field_syntax cache ast_parse stack
          (Unshared (PDict a), msg) h = Raise (KeyError "message"))
  /\ (forall (a : gmap string pyval) (v : pyval),
        a !! "message" = Some v ->
        (forall template, v <> PStr template) ->
        (forall cls, v <> PObject cls) ->
        __init__ py_repr wrap format_field_syntax cache ast_parse stack
          (Unshared (PDict a), msg) h = Raise (AttributeError "format")).
Proof.
  split; [|split].
  - intros annotation Hmap _. eexists.
    unfold __init__. cbn [fst snd]. apply bind_raise.
    unfold _format_annotation.
    rewrite (bind_run get_self _ _ _ _ eq_refl). cbn [snd _annotation].
    apply bind_raise. unfold annotation_getitem, lift.
    destruct annotation; try discriminate Hmap; reflexivity.
  - intros a Hm.
    unfold __init__. cbn [fst snd]. apply bind_raise.
    unfold _format_annotation.
    rewrite (bind_run get_self _ _ _ _ eq_refl).
    apply bind_raise. by apply (annotation_getitem_missing _ a).
  - intros a v Hm Hstr Hobj.
    unfold __init__. cbn [fst snd]. apply bind_raise.
    unfold _format_annotation.
    rewrite (bind_run get_self _ _ _ _ eq_refl).
    rewrite (bind_run _ _ _ _ _
               (annotation_getitem_item
                  (h, Make (Unshared (PDict a)) msg None None None None None)
                  "message" v Hm)).
    apply bind_raise. unfold lift.
    destruct v; try reflexivity. by destruct (Hstr s).
Qed.

(** X11: with no test frame on the stack, reading [locals], [filename]
    or [linenumber] of an object that holds none of them walks the stack,
    returns [None] and leaves the object and the heap as they were. *)
Theorem properties_without_test_frame
    (stack : list frame) (h : heap) (self : t) :
  Forall (fun f => is_test_frame f = false) stack ->
  _locals self = None ->
  _filename self = None ->
  _linenumber self = None ->
  locals py_repr stack (h, self) = OK (None, (h, self))
  /\ filename py_repr stack (h, self) = OK (None, (h, self))
  /\ linenumber py_repr stack (h, self) = OK (None, (h, self)).
Proof.
  intros Hstack Hl Hf Hn. split; [|split].
  - unfold locals, mbind, M_bind, get_self, get_heap, mret, M_ret, no_locals.
    cbn [fst snd]. rewrite Hl.
    rewrite (get_stack_no_test_frame py_repr _ _ Hstack).
    cbn [fst snd]. by rewrite Hl.
  - unfold filename, mbind, M_bind, get_self, mret, M_ret.
    cbn [fst snd]. rewrite Hf.
    rewrite (get_stack_no_test_frame py_repr _ _ Hstack).
    cbn [fst snd]. by rewrite Hf.
  - unfold linenumber, mbind, M_bind, get_self, mret, M_ret.
    cbn [fst snd]. rewrite Hn.
    rewrite (get_stack_no_test_frame py_repr _ _ Hstack).
    cbn [fst snd]. by rewrite Hn.
Qed.

(** X12: the source location comes from the frame the locals come
    from.  After the first reading of [locals] has captured a test frame
    with a file name and a line number other than 0, [filename] and
    [linenumber] return those of that frame and change nothing, on
    whatever stack and heap they are read later. *)
Theorem location_of_captured_frame
    (before after : list frame) (fr : frame) (h : heap) (self : t) (d : dict) :
  Forall (fun f => is_test_frame f = false) before ->
  is_test_frame fr = true ->
  h !! (f_locals fr) = Some d ->
  d <> [] ->
  _locals self = None ->
  f_filename fr <> EmptyString ->
  f_lineno fr <> 0 ->
  exists (snapshot : dict) (s : heap * t),
    locals py_repr (before ++ fr :: after) (h, self) = OK (Some snapshot, s)
    /\ forall (stack' : list frame) (h' : heap),
         filename py_repr stack' (h', s.2) = OK (Some (f_filename fr), (h', s.2))
         /\ linenumber py_repr stack' (h', s.2)
            = OK (Some (f_lineno fr), (h', s.2)).
Proof.
  intros Hbefore Hfr Hd Hne Hnone Hfile Hline.
  eexists _, _. split; [apply (locals_capture py_repr _ _ _ _ _ _ Hbefore Hfr Hd Hne Hnone)|].
  intros stack' h'. cbn [snd]. split.
  - unfold filename, mbind, M_bind, get_self, mret, M_ret.
    cbn [fst snd set_stack _filename].
    destruct (f_filename fr); [contradiction|reflexivity].
  - unfold linenumber, mbind, M_bind, get_self, mret, M_ret.
    cbn [fst snd set_stack _linenumber].
    destruct (f_lineno fr); [contradiction|reflexivity|reflexivity].
Qed.

(** X13: [assert_expr] of an object that holds a source location and no
    excerpt is what [_get_source] makes of that location with one
    leading line and [following = 2]: its error if it raises, else its
    excerpt, which the object then holds; and an excerpt that is not
    empty is returned as it is from then on, whatever the files, the
    stack and the heap have become. *)
Theorem assert_expr_of_location
    (stack : list frame) (h : heap) (self : t) (file : string) (line : Z) :
  _filename self = Some file ->
  file <> EmptyString ->
  _linenumber self = Some line ->
  line <> 0 ->
  _assert_expr self = None ->
  (forall e,
      _get_source cache ast_parse (Some file) (Some line) 1 2 = Raise e ->
      assert_expr py_repr cache ast_parse stack (h, self) = Raise e)
  /\ (forall src,
        _get_source cache ast_parse (Some file) (Some line) 1 2 = OK src ->
        assert_expr py_repr cache ast_parse stack (h, self)
        = OK (Some src, (h, set_assert_expr src self))
        /\ (src <> EmptyString ->
            forall cache' ast_parse' (stack' : list frame) (h' : heap),
              assert_expr py_repr cache' ast_parse' stack'
                (h', set_assert_expr src self)
              = OK (Some src, (h', set_assert_expr src self)))).
Proof.
  intros Hfile Hfne Hline Hlne Hexpr.
  assert (forall r,
             _get_source cache ast_parse (Some file) (Some line) 1 2 = r ->
             assert_expr py_repr cache ast_parse stack (h, self)
             = match r with
               | OK src => OK (Some src, (h, set_assert_expr src self))
               | Raise e => Raise e
               end) as Hrun.
  { intros r Hr.
    unfold assert_expr, mbind at 1, M_bind at 1, get_self at 1.
    cbn [fst snd]. rewrite Hexpr.
    unfold mbind at 1, M_bind at 1. unfold mbind at 1, M_bind at 1.
    unfold filename, mbind at 1, M_bind at 1, get_self at 1.
    cbn [fst snd]. rewrite Hfile.
    destruct file as [|c file]; [contradiction|].
    unfold mbind at 1, M_bind at 1, mret at 1, M_ret at 1.
    unfold mbind at 1, M_bind at 1, get_self at 1, mret at 1, M_ret at 1.
    cbn [fst snd]. rewrite Hfile.
    unfold mbind at 1, M_bind at 1.
    unfold linenumber, mbind at 1, M_bind at 1, get_self at 1.
    cbn [fst snd]. rewrite Hline.
    unfold mbind, M_bind, mret, M_ret, get_self, lift, update_self.
    destruct line as [|p|p]; [contradiction| |];
      cbn [fst snd]; rewrite Hline, Hr; by destruct r. }
  split.
  - intros e He. by rewrite (Hrun _ He).
  - intros src Hsrc. split; [by rewrite (Hrun _ Hsrc)|].
    intros Hne cache' ast_parse' stack' h'.
    destruct src as [|c src]; [contradiction|]. reflexivity.
Qed.

(** X16: read on an object that holds no snapshot yet, with a test
    frame on the stack, the Locals section lists the locals of that
    frame whose names are not reserved and do not start with an
    underscore, in the order the frame holds them, each as its name, [=]
    and the [repr] of its value, joined by a newline and a tab. *)
Theorem format_locals_of_test_frame
    (before after : list frame) (fr : frame) (h : heap) (self : t) (d : dict) :
  Forall (fun f => is_test_frame f = false) before ->
  is_test_frame fr = true ->
  h !! (f_locals fr) = Some d ->
  d <> [] ->
  _locals self = None ->
  exists s : heap * t,
    _format_locals py_repr (before ++ fr :: after) (h, self)
    = OK (join (NL +:+ TAB)
            (map (fun '(k, v) => k +:+ "=" +:+ py_repr v)
                 (List.filter (fun '(k, v) => shown_local k) d)),
          s).
Proof.
  intros Hbefore Hfr Hd Hne Hnone. eexists.
  unfold _format_locals, mbind, M_bind.
  rewrite (locals_capture py_repr _ _ _ _ _ _ Hbefore Hfr Hd Hne Hnone).
  unfold mret, M_ret. rewrite (filter_snapshot py_repr), map_map.
  do 3 f_equal. apply map_ext. by intros [k v].
Qed.

End Capture.

Section FurtherSamples.
Import AnnotatedAssertionError.

Lemma get_source_excerpt_witness :
  _get_source sample_cache sample_parse (Some "test_sample.py") (Some 10) 1 2
  = OK (join NL ["      9 line 9"; " >   10 line 10"; "     11 line 11"]).
Proof.
  rewrite (get_source_excerpt sample_cache sample_parse "test_sample.py"
             (map (fun k => "    line " +:+ str_of_int (Z.of_nat k)) (seq 1 16))
             sample_tree [sample_tree]
             [Node false (Some 10)
                [Node false (Some 10) []; Node false (Some 11) [];
                 Node false (Some 13) []];
              Node false (Some 10) []; Node false (Some 11) [];
              Node false (Some 13) []]
             (Node true (Some 10)
                [Node false (Some 10)
                   [Node false (Some 10) []; Node false (Some 11) [];
                    Node false (Some 13) []]])
             (Node true (Some 10)
                [Node false (Some 10)
                   [Node false (Some 10) []; Node false (Some 11) [];
                    Node false (Some 13) []]])
             10 10 1 2).
  - vm_compute. reflexivity.
  - vm_compute. reflexivity.
  - reflexivity.
  - reflexivity.
  - reflexivity.
  - repeat constructor; discriminate.
  - reflexivity.
  - reflexivity.
  - reflexivity.
  - lia.
Defined.

Lemma get_source_empty_range_witness :
  _get_source sample_cache (fun _ => OK sample_tree_two_tests)
    (Some "test_sample.py") (Some 4) 1 2
  = OK EmptyString.
Proof.
  apply (get_source_empty_range sample_cache (fun _ => OK sample_tree_two_tests)
           (Some "test_sample.py") sample_tree_two_tests
           (take 8 (walk sample_tree_two_tests)) []
           (Node false (Some 4) [])
           (Node true (Some 7) [Node false (Some 7) []]) 7 4 1 2).
  - reflexivity.
  - vm_compute. reflexivity.
  - vm_compute. repeat constructor; discriminate.
  - reflexivity.
  - vm_compute. reflexivity.
  - reflexivity.
  - lia.
Defined.

Lemma get_source_unbound_source_witness :
  _get_source unreadable_cache unreadable_parse (Some "test_sample.py")
    (Some 13) 1 2
  = Raise (UnboundLocalError "source").
Proof.
  apply (get_source_unbound_source unreadable_cache unreadable_parse
           (Some "test_sample.py") (Some 13) (Node false None [])).
  - reflexivity.
  - intros n _. vm_compute. repeat constructor; discriminate.
Defined.


Lemma init_unbound_template_name_witness :
  __init__ sample_repr sample_wrap sample_field_syntax sample_cache sample_parse
    (sample_stack 13)
    (Unshared (PDict (<["message" := PStr "x was {x} but {y} {"]>
                        {["advice" := PStr "check {x}"]})),
     "False is not true")
    sample_heap
  = Raise (KeyError "y").
Proof.
  apply (init_unbound_template_name sample_repr sample_wrap sample_field_syntax
           sample_cache sample_parse
           [Frame "assertTrue" 2 "case.py" 700; Frame "wrapper" 2 "marbles.py" 333]
           [Frame "run" 3 "case.py" 50]
           (Frame "test_sample" 1 "test_sample.py" 13)
           sample_heap sample_locals _ "False is not true" "y" " {" "x was 5 but "
           [Text "x was "; Field "x"; Text " but "]).
  - repeat constructor.
  - reflexivity.
  - reflexivity.
  - discriminate.
  - reflexivity.
  - reflexivity.
  - reflexivity.
  - reflexivity.
  - vm_compute. reflexivity.
Defined.

Lemma init_malformed_annotation_witness :
  (exists what,
      __init__ sample_repr sample_wrap sample_field_syntax sample_cache
        sample_parse (sample_stack 13) (Unshared (PInt 3), "False is not true")
        sample_heap
      = Raise (TypeError what))
  /\ __init__ sample_repr sample_wrap sample_field_syntax sample_cache
       sample_parse (sample_stack 13)
       (Unshared (PDict {["advice" := PStr "a"]}), "False is not true")
       sample_heap
     = Raise (KeyError "message")
  /\ __init__ sample_repr sample_wrap sample_field_syntax sample_cache
       sample_parse (sample_stack 13)
       (Unshared (PDict {["message" := PInt 3]}), "False is not true")
       sample_heap
     = Raise (AttributeError "format").
Proof.
  destruct (init_malformed_annotation sample_repr sample_wrap
              sample_field_syntax sample_cache sample_parse (sample_stack 13)
              sample_heap "False is not true") as (Htype & Hkey & Hattr).
  split; [|split].
  - apply Htype; [reflexivity|discriminate].
  - apply Hkey. reflexivity.
  - apply (Hattr _ (PInt 3)); [reflexivity|discriminate|discriminate].
Defined.

Lemma properties_without_test_frame_witness :
  let stack := [Frame "setUp" 1 "test_sample.py" 13; Frame "run" 3 "case.py" 50] in
  let self := Make sample_annotation "False is not true" None None None None None in
  locals sample_repr stack (sample_heap, self) = OK (None, (sample_heap, self))
  /\ filename sample_repr stack (sample_heap, self) = OK (None, (sample_heap, self))
  /\ linenumber sample_repr stack (sample_heap, self)
     = OK (None, (sample_heap, self)).
Proof.
  intros stack self.
  apply (properties_without_test_frame sample_repr stack sample_heap self);
    [repeat constructor|reflexivity|reflexivity|reflexivity].
Defined.

Lemma location_of_captured_frame_witness :
  exists (snapshot : dict) (s : heap * t),
    locals sample_repr (sample_stack 13)
      (sample_heap,
       Make sample_annotation "False is not true" None None None None None)
    = OK (Some snapshot, s)
    /\ forall (stack' : list frame) (h' : heap),
         filename sample_repr stack' (h', s.2)
         = OK (Some "test_sample.py", (h', s.2))
         /\ linenumber sample_repr stack' (h', s.2) = OK (Some 13, (h', s.2)).
Proof.
  apply (location_of_captured_frame sample_repr
           [Frame "assertTrue" 2 "case.py" 700; Frame "wrapper" 2 "marbles.py" 333]
           [Frame "run" 3 "case.py" 50]
           (Frame "test_sample" 1 "test_sample.py" 13)
           sample_heap
           (Make sample_annotation "False is not true" None None None None None)
           sample_locals).
  - repeat constructor.
  - reflexivity.
  - reflexivity.
  - discriminate.
  - reflexivity.
  - discriminate.
  - discriminate.
Defined.

Lemma assert_expr_of_location_witness :
  let self := Make sample_annotation "False is not true" (Some 4%positive)
                (Some "test_sample.py") (Some 13) None None in
  exists src,
    assert_expr sample_repr sample_cache sample_parse (sample_stack 13)
      (sample_heap, self)
    = OK (Some src, (sample_heap, set_assert_expr src self)).
Proof.
  intros self.
  destruct (assert_expr_of_location sample_repr sample_cache sample_parse
              (sample_stack 13) sample_heap self "test_sample.py" 13)
    as [_ Hok]; [reflexivity|discriminate|reflexivity|discriminate|reflexivity|].
  eexists. eapply Hok. vm_compute. reflexivity.
Defined.

Lemma format_locals_of_test_frame_witness :
  exists s : heap * t,
    _format_locals sample_repr (sample_stack 13)
      (sample_heap,
       Make sample_annotation "False is not true" None None None None None)
    = OK ("x=5", s).
Proof.
  apply (format_locals_of_test_frame sample_repr
           [Frame "assertTrue" 2 "case.py" 700; Frame "wrapper" 2 "marbles.py" 333]
           [Frame "run" 3 "case.py" 50]
           (Frame "test_sample" 1 "test_sample.py" 13)
           sample_heap
           (Make sample_annotation "False is not true" None None None None None)
           sample_locals);
    [repeat constructor|reflexivity|reflexivity|discriminate|reflexivity].
Defined.


Lemma init_report_layout_witness :
  exists s : heap * t,
    __init__ sample_repr sample_wrap sample_field_syntax sample_cache
      sample_parse (sample_stack 13)
      (Unshared sample_annotation, "False is not true") sample_heap
    = OK (Some (meta_format "False is not true" "x was 5"
                  (join NL ["      9 line 9"; " >   10 line 10";
                            "     11 line 11"; "     12 line 12";
                            "     13 line 13"; "     14 line 14"])
                  "x=5" "check 5"),
          s)
    /\ annotation_item s "message" = Some (PStr "x was 5")
    /\ annotation_item s "advice" = Some (PStr "check 5").
Proof.
  destruct (init_report_layout sample_repr sample_wrap sample_field_syntax
              sample_cache sample_parse
              [Frame "assertTrue" 2 "case.py" 700; Frame "wrapper" 2 "marbles.py" 333]
              [Frame "run" 3 "case.py" 50]
              (Frame "test_sample" 1 "test_sample.py" 13)
              sample_heap sample_locals (Unshared sample_annotation)
              "False is not true" "x was {x}" "check {x}" "x was 5" "check 5")
    as [Hok _].
  - repeat constructor.
  - reflexivity.
  - reflexivity.
  - discriminate.
  - discriminate.
  - discriminate.
  - vm_compute. reflexivity.
  - vm_compute. reflexivity.
  - reflexivity.
  - reflexivity.
  - destruct (Hok (join NL ["      9 line 9"; " >   10 line 10";
                            "     11 line 11"; "     12 line 12";
                            "     13 line 13"; "     14 line 14"]))
      as (s & Hinit & Hm & Ha & _); [vm_compute; reflexivity|].
    exists s. split; [exact Hinit|]. split; [exact Hm|exact Ha].
Defined.

End FurtherSamples.
